(** * text2voicevox: a shallow embedding of [main.go]

    The program is a linear pipeline around three HTTP calls to a local
    VOICEVOX engine.  Everything the program cannot decide by itself (the
    engine's answers, the file system, the clock, the behaviour of the Go
    standard library's JSON codec) is read from two records, [GoLib] and
    [World]; the program itself is written in a small trace monad, so that
    every print, request and file access shows up, in order, in the trace
    of a run. *)

From Stdlib Require Import ZArith String Ascii List Bool Lia.
From Stdlib Require Import Floats DecimalString.
Import ListNotations.

Local Open Scope string_scope.
Local Open Scope Z_scope.

(** ** Go base types

    [string] and [[]byte] are byte sequences (Rocq's [string]); [int] is
    [Z]; [float64] is the kernel's binary64 [float], compared with the
    IEEE comparison [PrimFloat.eqb] as Go's [==] and [!=] do. *)

Definition float64 := float.

Definition nl : string := String (ascii_of_nat 10) EmptyString.
Definition tab : string := String (ascii_of_nat 9) EmptyString.

(** [strconv.Itoa] and the [%d] verb: decimal rendering. *)
Definition Itoa (n : Z) : string := NilZero.string_of_int (Z.to_int n).

(** A Go call returning [(T, error)], with [E] the type of the error.  The
    zero value that comes with a non-nil error is not kept: no caller
    reads it. *)
Inductive res (E A : Type) : Type :=
| Ok (a : A)
| Fail (e : E).
Arguments Ok {E A} a.
Arguments Fail {E A} e.

(** ** Data model *)

(** What [encoding/json] stores in an [interface{}]. *)
#[local] Set Warnings "-register-all".
Inductive json_value : Type :=
| JNull
| JBool (b : bool)
| JNumber (f : float64)
| JString (s : string)
| JArray (elems : list json_value)
| JObject (members : list (string * json_value)).

Record AudioQuery : Type := {
  AccentPhrases : list json_value;
  SpeedScale : float64;
  PitchScale : float64;
  IntonationScale : float64;
  VolumeScale : float64;
  PrePhonemeLength : float64;
  PostPhonemeLength : float64;
  OutputSamplingRate : Z;
  OutputStereo : bool;
  Kana : string
}.

Record SpeakerStyle : Type := {
  StyleName : string;
  ID : Z
}.

Record Speaker : Type := {
  Name : string;
  SpeakerUUID : string;
  Styles : list SpeakerStyle;
  Version : string
}.

Record Client : Type := {
  BaseURL : string
}.

(** Field assignments through the [*AudioQuery] pointer. *)
Definition set_SpeedScale (v : float64) (q : AudioQuery) : AudioQuery :=
  {| AccentPhrases := AccentPhrases q; SpeedScale := v;
     PitchScale := PitchScale q; IntonationScale := IntonationScale q;
     VolumeScale := VolumeScale q; PrePhonemeLength := PrePhonemeLength q;
     PostPhonemeLength := PostPhonemeLength q;
     OutputSamplingRate := OutputSamplingRate q;
     OutputStereo := OutputStereo q; Kana := Kana q |}.

Definition set_PitchScale (v : float64) (q : AudioQuery) : AudioQuery :=
  {| AccentPhrases := AccentPhrases q; SpeedScale := SpeedScale q;
     PitchScale := v; IntonationScale := IntonationScale q;
     VolumeScale := VolumeScale q; PrePhonemeLength := PrePhonemeLength q;
     PostPhonemeLength := PostPhonemeLength q;
     OutputSamplingRate := OutputSamplingRate q;
     OutputStereo := OutputStereo q; Kana := Kana q |}.

Definition set_IntonationScale (v : float64) (q : AudioQuery) : AudioQuery :=
  {| AccentPhrases := AccentPhrases q; SpeedScale := SpeedScale q;
     PitchScale := PitchScale q; IntonationScale := v;
     VolumeScale := VolumeScale q; PrePhonemeLength := PrePhonemeLength q;
     PostPhonemeLength := PostPhonemeLength q;
     OutputSamplingRate := OutputSamplingRate q;
     OutputStereo := OutputStereo q; Kana := Kana q |}.

Definition set_VolumeScale (v : float64) (q : AudioQuery) : AudioQuery :=
  {| AccentPhrases := AccentPhrases q; SpeedScale := SpeedScale q;
     PitchScale := PitchScale q; IntonationScale := IntonationScale q;
     VolumeScale := v; PrePhonemeLength := PrePhonemeLength q;
     PostPhonemeLength := PostPhonemeLength q;
     OutputSamplingRate := OutputSamplingRate q;
     OutputStereo := OutputStereo q; Kana := Kana q |}.

Definition set_PrePhonemeLength (v : float64) (q : AudioQuery) : AudioQuery :=
  {| AccentPhrases := AccentPhrases q; SpeedScale := SpeedScale q;
     PitchScale := PitchScale q; IntonationScale := IntonationScale q;
     VolumeScale := VolumeScale q; PrePhonemeLength := v;
     PostPhonemeLength := PostPhonemeLength q;
     OutputSamplingRate := OutputSamplingRate q;
     OutputStereo := OutputStereo q; Kana := Kana q |}.

Definition set_PostPhonemeLength (v : float64) (q : AudioQuery) : AudioQuery :=
  {| AccentPhrases := AccentPhrases q; SpeedScale := SpeedScale q;
     PitchScale := PitchScale q; IntonationScale := IntonationScale q;
     VolumeScale := VolumeScale q; PrePhonemeLength := PrePhonemeLength q;
     PostPhonemeLength := v;
     OutputSamplingRate := OutputSamplingRate q;
     OutputStereo := OutputStereo q; Kana := Kana q |}.

(** ** HTTP *)

(** A response body: what [io.ReadAll] gets out of it, and the error it
    stops on, if any. *)
Record ReadCloser : Type := {
  contents : string;
  failure : option string
}.

Definition ReadAll (r : ReadCloser) : string * option string :=
  (contents r, failure r).

Record Response : Type := {
  StatusCode : Z;
  Body : ReadCloser
}.

Record Request : Type := {
  Method : string;
  URL : string;
  RawQuery : string;
  ContentType : string;
  ReqBody : option string
}.

Definition StatusOK : Z := 200.

(** ** Errors

    One constructor per [fmt.Errorf] of the client, carrying the values
    that are formatted into the message; [Error] renders the message. *)
Inductive error : Type :=
| ErrConnect (cause : string)            (* findSpeakerID, http.Get failed *)
| ErrConnectList (cause : string)        (* listSpeakers, http.Get failed *)
| ErrSpeakersStatus (code : Z)           (* /speakers answered code <> 200 *)
| ErrSpeakersDecode (cause : string)
| ErrSpeakerNotFound (name : string)
| ErrNewRequest (cause : string)
| ErrAudioQueryRequest (cause : string)
| ErrAudioQueryStatus (code : Z) (body : string)
| ErrAudioQueryDecode (cause : string)
| ErrMarshal (cause : string)
| ErrSynthesisRequest (cause : string)
| ErrSynthesisStatus (code : Z) (body : string)
| ErrReadWav (cause : string).

Definition Error (e : error) : string :=
  match e with
  | ErrConnect cause =>
      "VOICEVOXエンジンに接続できませんでした: " ++ cause ++ nl ++
      "エンジンが起動しているか、ポート番号が正しいか確認してください"
  | ErrConnectList cause =>
      "VOICEVOXエンジンに接続できませんでした: " ++ cause
  | ErrSpeakersStatus code =>
      "話者情報の取得に失敗しました (ステータスコード: " ++ Itoa code ++ ")"
  | ErrSpeakersDecode cause =>
      "話者情報のデコードに失敗しました: " ++ cause
  | ErrSpeakerNotFound name =>
      "指定された話者 '" ++ name ++ "' が見つかりませんでした"
  | ErrNewRequest cause =>
      "リクエストの作成に失敗しました: " ++ cause
  | ErrAudioQueryRequest cause =>
      "audio_queryリクエストに失敗しました: " ++ cause
  | ErrAudioQueryStatus code body =>
      "audio_queryの生成に失敗しました (ステータスコード: " ++ Itoa code ++ ")"
      ++ nl ++ "エラー詳細: " ++ body
  | ErrAudioQueryDecode cause =>
      "audio_queryのデコードに失敗しました: " ++ cause
  | ErrMarshal cause =>
      "クエリのJSON変換に失敗しました: " ++ cause
  | ErrSynthesisRequest cause =>
      "synthesisリクエストに失敗しました: " ++ cause
  | ErrSynthesisStatus code body =>
      "音声合成に失敗しました (ステータスコード: " ++ Itoa code ++ ")"
      ++ nl ++ "エラー詳細: " ++ body
  | ErrReadWav cause =>
      "WAVデータの読み込みに失敗しました: " ++ cause
  end.

(** The spec's error kinds; [OtherError] for the failures of the client
    that the spec does not name (building the request, encoding the query,
    reading the audio out of the response). *)
Inductive ErrorKind : Type :=
| ConnectionError | ProtocolError | DecodeError | SpeakerNotFound | OtherError.

Definition kind_of (e : error) : ErrorKind :=
  match e with
  | ErrConnect _ | ErrConnectList _
  | ErrAudioQueryRequest _ | ErrSynthesisRequest _ => ConnectionError
  | ErrSpeakersStatus _ | ErrAudioQueryStatus _ _
  | ErrSynthesisStatus _ _ => ProtocolError
  | ErrSpeakersDecode _ | ErrAudioQueryDecode _ => DecodeError
  | ErrSpeakerNotFound _ => SpeakerNotFound
  | ErrNewRequest _ | ErrMarshal _ | ErrReadWav _ => OtherError
  end.

(** The status code a protocol error carries. *)
Definition status_of (e : error) : option Z :=
  match e with
  | ErrSpeakersStatus code | ErrAudioQueryStatus code _
  | ErrSynthesisStatus code _ => Some code
  | _ => None
  end.

(** The response body text a protocol error carries. *)
Definition body_text_of (e : error) : option string :=
  match e with
  | ErrAudioQueryStatus _ body | ErrSynthesisStatus _ body => Some body
  | _ => None
  end.

(** ** The surroundings of a run *)

(** The Go standard library functions the program calls and this file does
    not look into. *)
Record GoLib : Type := {
  (* json.NewDecoder(body).Decode(&speakers), speakers a nil []Speaker *)
  json_decode_speakers : ReadCloser -> res string (list Speaker);
  (* json.NewDecoder(body).Decode(&query), query a zero AudioQuery *)
  json_decode_query : ReadCloser -> res string AudioQuery;
  (* json.Marshal(query) *)
  json_marshal_query : AudioQuery -> res string string;
  (* url.Values.Encode, the values in the order they were added *)
  url_values_encode : list (string * string) -> string;
  (* http.NewRequest(method, url, nil): its error, if any *)
  http_new_request : string -> string -> option string;
  (* what flag.PrintDefaults writes to the error stream *)
  flag_defaults : string
}.

(** The command line after [flag.Parse]: each flag as given, [None] when
    it was omitted. *)
Record CommandLine : Type := {
  arg_i : option string;
  arg_o : option string;
  arg_actor : option string;
  arg_port : option Z;
  arg_list_actors : option bool;
  arg_speed : option float64;
  arg_pitch : option float64;
  arg_intonation : option float64;
  arg_volume : option float64;
  arg_pre_phoneme : option float64;
  arg_post_phoneme : option float64
}.

(** Everything outside the process. *)
Record World : Type := {
  os_Args0 : string;
  command_line : CommandLine;
  (* the engine: a transport error or a response, per request *)
  http_do : Request -> res string Response;
  (* os.ReadFile *)
  os_ReadFile : string -> res string string;
  (* os.WriteFile(path, data, 0644): its error, if any *)
  os_WriteFile : string -> string -> option string;
  (* time.Since(startTime) around the synthesis call, as %s prints it *)
  synthesis_duration : string
}.

(** ** Traces *)

(** Entry into a method of [Client], with its arguments.  These entries
    are markers, not input or output: each method of the client logs one
    as its first step, so that a trace also tells which operations a run
    performed, on what. *)
Inductive ClientCall : Type :=
| Call_listSpeakers
| Call_findSpeakerID (name : string)
| Call_createAudioQuery (text : string) (speakerID : Z)
| Call_synthesis (query : AudioQuery) (speakerID : Z).

Inductive Event : Type :=
| Enter (c : ClientCall)
| Http (r : Request)
| Stdout (s : string)
| Stderr (s : string)
| FileRead (path : string)
| FileWrite (path : string) (data : string) (perm : Z).

Definition Trace := list Event.

(** ** The monad: a trace, and either a value or [os.Exit] *)

Inductive Outcome (A : Type) : Type :=
| Done (a : A)
| Exited (code : Z).
Arguments Done {A} a.
Arguments Exited {A} code.

Definition IO (A : Type) : Type := (Trace * Outcome A)%type.

Definition ret {A} (a : A) : IO A := ([], Done a).

Definition bind {A B} (m : IO A) (k : A -> IO B) : IO B :=
  match m with
  | (t, Done a) => let (t', o) := k a in ((t ++ t')%list, o)
  | (t, Exited code) => (t, Exited code)
  end.

Definition emit (e : Event) : IO unit := ([e], Done tt).
Definition Exit {A} (code : Z) : IO A := ([], Exited code).

Declare Scope io_scope.
Delimit Scope io_scope with io.
Notation "x <- m ;; k" := (bind m (fun x => k))
  (at level 61, m at next level, right associativity) : io_scope.
Notation "m ;; k" := (bind m (fun _ => k))
  (at level 61, right associativity) : io_scope.
Local Open Scope io_scope.

Definition trace_of {A} (m : IO A) : Trace := fst m.
Definition outcome_of {A} (m : IO A) : Outcome A := snd m.

(** [for _, x := range xs { body x }] with a body that does not leave the
    loop. *)
Fixpoint for_range {A} (xs : list A) (body : A -> IO unit) : IO unit :=
  match xs with
  | [] => ret tt
  | x :: rest => body x ;; for_range rest body
  end.

(** ** The client *)

Definition NewClient (port : Z) : Client :=
  {| BaseURL := "http://localhost:" ++ Itoa port |}.

(** [http.Get(url)]. *)
Definition http_Get (url : string) : Request :=
  {| Method := "GET"; URL := url; RawQuery := ""; ContentType := "";
     ReqBody := None |}.

(** [http.Post(url, contentType, body)]. *)
Definition http_Post (url contentType body : string) : Request :=
  {| Method := "POST"; URL := url; RawQuery := "";
     ContentType := contentType; ReqBody := Some body |}.

Section Program.

Variable L : GoLib.
Variable W : World.

Definition send (r : Request) : IO (res string Response) :=
  emit (Http r) ;; ret (http_do W r).

(** The loop of [findSpeakerID]: the first speaker of that name that has a
    style decides; a speaker of that name without styles is passed over. *)
Fixpoint findSpeakerID_loop (name : string) (speakers : list Speaker)
  : IO (res error Z) :=
  match speakers with
  | [] => ret (Fail (ErrSpeakerNotFound name))
  | speaker :: rest =>
      if (Name speaker =? name)%string then
        match Styles speaker with
        | style0 :: _ =>
            emit (Stdout ("話者 '" ++ Name speaker ++ "' (スタイル: " ++
                          StyleName style0 ++ ", ID: " ++ Itoa (ID style0) ++
                          ") を使用します。" ++ nl)) ;;
            ret (Ok (ID style0))
        | [] => findSpeakerID_loop name rest
        end
      else findSpeakerID_loop name rest
  end.

Definition findSpeakerID (c : Client) (name : string) : IO (res error Z) :=
  emit (Enter (Call_findSpeakerID name)) ;;
  r <- send (http_Get (BaseURL c ++ "/speakers")) ;;
  match r with
  | Fail err => ret (Fail (ErrConnect err))
  | Ok resp =>
      if negb (StatusCode resp =? StatusOK) then
        ret (Fail (ErrSpeakersStatus (StatusCode resp)))
      else
        match json_decode_speakers L (Body resp) with
        | Fail err => ret (Fail (ErrSpeakersDecode err))
        | Ok speakers => findSpeakerID_loop name speakers
        end
  end.

Definition listSpeakers (c : Client) : IO (option error) :=
  emit (Enter Call_listSpeakers) ;;
  r <- send (http_Get (BaseURL c ++ "/speakers")) ;;
  match r with
  | Fail err => ret (Some (ErrConnectList err))
  | Ok resp =>
      if negb (StatusCode resp =? StatusOK) then
        ret (Some (ErrSpeakersStatus (StatusCode resp)))
      else
        match json_decode_speakers L (Body resp) with
        | Fail err => ret (Some (ErrSpeakersDecode err))
        | Ok speakers =>
            emit (Stdout ("--- 利用可能な話者一覧 ---" ++ nl)) ;;
            for_range speakers (fun speaker =>
              emit (Stdout ("話者名: " ++ Name speaker ++ nl)) ;;
              for_range (Styles speaker) (fun style =>
                emit (Stdout ("  - スタイル: " ++ StyleName style ++
                              " (ID: " ++ Itoa (ID style) ++ ")" ++ nl)))) ;;
            emit (Stdout ("--------------------------" ++ nl)) ;;
            emit (Stdout ("CLIで話者を指定する際は `--actor " ++
                          String (ascii_of_nat 34) "<話者名>" ++
                          String (ascii_of_nat 34) "` のように指定してください。" ++
                          nl)) ;;
            ret None
        end
  end.

Definition createAudioQuery (c : Client) (text : string) (speakerID : Z)
  : IO (res error AudioQuery) :=
  emit (Enter (Call_createAudioQuery text speakerID)) ;;
  let endpoint := BaseURL c ++ "/audio_query" in
  let params := [("text", text); ("speaker", Itoa speakerID)] in
  match http_new_request L "POST" endpoint with
  | Some err => ret (Fail (ErrNewRequest err))
  | None =>
      let req := {| Method := "POST"; URL := endpoint;
                    RawQuery := url_values_encode L params;
                    ContentType := ""; ReqBody := None |} in
      r <- send req ;;
      match r with
      | Fail err => ret (Fail (ErrAudioQueryRequest err))
      | Ok resp =>
          if negb (StatusCode resp =? StatusOK) then
            let (body, _) := ReadAll (Body resp) in
            ret (Fail (ErrAudioQueryStatus (StatusCode resp) body))
          else
            match json_decode_query L (Body resp) with
            | Fail err => ret (Fail (ErrAudioQueryDecode err))
            | Ok query => ret (Ok query)
            end
      end
  end.

Definition synthesis (c : Client) (query : AudioQuery) (speakerID : Z)
  : IO (res error string) :=
  emit (Enter (Call_synthesis query speakerID)) ;;
  match json_marshal_query L query with
  | Fail err => ret (Fail (ErrMarshal err))
  | Ok queryJSON =>
      let synthesisURL :=
        BaseURL c ++ "/synthesis?speaker=" ++ Itoa speakerID in
      r <- send (http_Post synthesisURL "application/json" queryJSON) ;;
      match r with
      | Fail err => ret (Fail (ErrSynthesisRequest err))
      | Ok resp =>
          if negb (StatusCode resp =? StatusOK) then
            let (body, _) := ReadAll (Body resp) in
            ret (Fail (ErrSynthesisStatus (StatusCode resp) body))
          else
            match ReadAll (Body resp) with
            | (_, Some err) => ret (Fail (ErrReadWav err))
            | (wavData, None) => ret (Ok wavData)
            end
      end
  end.

(** ** main *)

(** The value of a flag after [flag.Parse]. *)
Definition flag_value {A} (default : A) (given : option A) : A :=
  match given with
  | Some v => v
  | None => default
  end.

(** [flag.Usage] as [main] sets it. *)
Definition Usage : IO unit :=
  emit (Stderr ("使用法: " ++ os_Args0 W ++ " [オプション]" ++ nl ++ nl)) ;;
  emit (Stderr ("必須オプション:" ++ nl)) ;;
  emit (Stderr ("  -i string" ++ nl ++ "    " ++ tab ++
                "入力テキストファイルのパス" ++ nl)) ;;
  emit (Stderr ("  -o string" ++ nl ++ "    " ++ tab ++
                "出力WAVファイルのパス" ++ nl)) ;;
  emit (Stderr (nl ++ "その他のオプション:" ++ nl)) ;;
  emit (Stderr (flag_defaults L)).

(** [fmt.Fprintf(os.Stderr, ...); os.Exit(1)]. *)
Definition fatal {A} (msg : string) : IO A :=
  emit (Stderr msg) ;; Exit 1.

Definition main : IO unit :=
  let inputFile := flag_value "" (arg_i (command_line W)) in
  let outputFile := flag_value "" (arg_o (command_line W)) in
  let actorName := flag_value "ずんだもん" (arg_actor (command_line W)) in
  let port := flag_value 50021 (arg_port (command_line W)) in
  let showActors := flag_value false (arg_list_actors (command_line W)) in
  let speed := flag_value 1.0%float (arg_speed (command_line W)) in
  let pitch := flag_value 0.0%float (arg_pitch (command_line W)) in
  let intonation := flag_value 1.0%float (arg_intonation (command_line W)) in
  let volume := flag_value 1.0%float (arg_volume (command_line W)) in
  let prePhoneme :=
    flag_value (-1.0)%float (arg_pre_phoneme (command_line W)) in
  let postPhoneme :=
    flag_value (-1.0)%float (arg_post_phoneme (command_line W)) in
  let client := NewClient port in
  (if showActors then
     err <- listSpeakers client ;;
     match err with
     | Some err => fatal ("エラー: " ++ Error err ++ nl)
     | None => Exit 0
     end
   else ret tt) ;;
  (if (inputFile =? "")%string || (outputFile =? "")%string then
     Usage ;; Exit 1
   else ret tt) ;;
  r <- findSpeakerID client actorName ;;
  match r with
  | Fail err => fatal ("エラー: " ++ Error err ++ nl)
  | Ok speakerID =>
  emit (Stdout ("'" ++ inputFile ++ "' を読み込んでいます..." ++ nl)) ;;
  emit (FileRead inputFile) ;;
  match os_ReadFile W inputFile with
  | Fail err =>
      fatal ("エラー: ファイルの読み込みに失敗しました: " ++ err ++ nl)
  | Ok textBytes =>
  emit (Stdout ("音声合成クエリを作成中..." ++ nl)) ;;
  r <- createAudioQuery client textBytes speakerID ;;
  match r with
  | Fail err => fatal ("エラー: " ++ Error err ++ nl)
  | Ok query =>
  emit (Stdout ("パラメータを調整しています..." ++ nl)) ;;
  let query := set_SpeedScale speed query in
  let query := set_PitchScale pitch query in
  let query := set_IntonationScale intonation query in
  let query := set_VolumeScale volume query in
  let query :=
    if negb (prePhoneme =? (-1.0))%float
    then set_PrePhonemeLength prePhoneme query else query in
  let query :=
    if negb (postPhoneme =? (-1.0))%float
    then set_PostPhonemeLength postPhoneme query else query in
  emit (Stdout ("音声合成を実行中..." ++ nl)) ;;
  r <- synthesis client query speakerID ;;
  match r with
  | Fail err => fatal ("エラー: " ++ Error err ++ nl)
  | Ok wavData =>
  emit (FileWrite outputFile wavData 420) ;;
  match os_WriteFile W outputFile wavData with
  | Some err =>
      fatal ("エラー: ファイルの保存に失敗しました: " ++ err ++ nl)
  | None =>
  emit (Stdout (nl ++ "✨ 完了！ (処理時間: " ++ synthesis_duration W ++
                ")" ++ nl)) ;;
  emit (Stdout ("音声を '" ++ outputFile ++ "' に保存しました。" ++ nl))
  end end end end end.

End Program.

(** The exit status of the process: [os.Exit]'s argument, or 0 when [main]
    returns. *)
Definition exit_code (m : IO unit) : Z :=
  match outcome_of m with
  | Done _ => 0
  | Exited code => code
  end.

(** ** Reading traces *)

(** The client methods a run entered, in order. *)
Fixpoint calls_of (t : Trace) : list ClientCall :=
  match t with
  | [] => []
  | Enter c :: t' => c :: calls_of t'
  | _ :: t' => calls_of t'
  end.

Definition is_output (e : Event) : bool :=
  match e with
  | Stdout _ | Stderr _ => true
  | _ => false
  end.

Definition is_stderr (e : Event) : bool :=
  match e with
  | Stderr _ => true
  | _ => false
  end.

(** A status of the success class, 2xx. *)
Definition success_status (code : Z) : bool :=
  (200 <=? code) && (code <? 300).

(** What [listSpeakers] is to print for a catalog, line by line, in the
    words of the specification: a header, then for each entry in catalog
    order its name followed by its styles' names and identifiers in
    catalog order, then the two closing lines. *)
Definition style_line (style : SpeakerStyle) : string :=
  "  - スタイル: " ++ StyleName style ++ " (ID: " ++ Itoa (ID style) ++ ")" ++ nl.

Definition speaker_lines (speaker : Speaker) : list string :=
  ("話者名: " ++ Name speaker ++ nl) :: map style_line (Styles speaker).

Definition listing_header : string := "--- 利用可能な話者一覧 ---" ++ nl.

Definition listing_footer : list string :=
  [ "--------------------------" ++ nl;
    "CLIで話者を指定する際は `--actor " ++
    String (ascii_of_nat 34) "<話者名>" ++
    String (ascii_of_nat 34) "` のように指定してください。" ++ nl ].

Definition listing (speakers : list Speaker) : list string :=
  listing_header :: app (flat_map speaker_lines speakers) listing_footer.

(** The flags as [main] reads them after [flag.Parse]. *)
Definition inputFile_of (W : World) : string :=
  flag_value "" (arg_i (command_line W)).
Definition outputFile_of (W : World) : string :=
  flag_value "" (arg_o (command_line W)).
Definition actorName_of (W : World) : string :=
  flag_value "ずんだもん" (arg_actor (command_line W)).
Definition showActors_of (W : World) : bool :=
  flag_value false (arg_list_actors (command_line W)).
Definition speed_of (W : World) : float64 :=
  flag_value 1.0%float (arg_speed (command_line W)).
Definition pitch_of (W : World) : float64 :=
  flag_value 0.0%float (arg_pitch (command_line W)).
Definition intonation_of (W : World) : float64 :=
  flag_value 1.0%float (arg_intonation (command_line W)).
Definition volume_of (W : World) : float64 :=
  flag_value 1.0%float (arg_volume (command_line W)).
Definition prePhoneme_of (W : World) : float64 :=
  flag_value (-1.0)%float (arg_pre_phoneme (command_line W)).
Definition postPhoneme_of (W : World) : float64 :=
  flag_value (-1.0)%float (arg_post_phoneme (command_line W)).
Definition client_of (W : World) : Client :=
  NewClient (flag_value 50021 (arg_port (command_line W))).

(** The query [main] hands to [synthesis], from the one [createAudioQuery]
    returned: the assignments of [main] between the two calls. *)
Definition adjusted (W : World) (query : AudioQuery) : AudioQuery :=
  let query := set_SpeedScale (speed_of W) query in
  let query := set_PitchScale (pitch_of W) query in
  let query := set_IntonationScale (intonation_of W) query in
  let query := set_VolumeScale (volume_of W) query in
  let query :=
    if negb (prePhoneme_of W =? (-1.0))%float
    then set_PrePhonemeLength (prePhoneme_of W) query else query in
  if negb (postPhoneme_of W =? (-1.0))%float
  then set_PostPhonemeLength (postPhoneme_of W) query else query.

(** The requests the client sends. *)
Definition speakers_request (c : Client) : Request :=
  http_Get (BaseURL c ++ "/speakers").

Definition audio_query_request (L : GoLib) (c : Client) (text : string)
  (speakerID : Z) : Request :=
  {| Method := "POST"; URL := BaseURL c ++ "/audio_query";
     RawQuery :=
       url_values_encode L [("text", text); ("speaker", Itoa speakerID)];
     ContentType := ""; ReqBody := None |}.

Definition synthesis_request (c : Client) (queryJSON : string)
  (speakerID : Z) : Request :=
  http_Post (BaseURL c ++ "/synthesis?speaker=" ++ Itoa speakerID)
    "application/json" queryJSON.

(** ** A small engine to run the program on *)

Module Demo.

Definition alice : Speaker :=
  {| Name := "Alice";
     SpeakerUUID := "7ffcb7ce-00ec-4bdc-82cd-45a8889e43ff";
     Styles := [ {| StyleName := "Normal"; ID := 0 |};
                 {| StyleName := "Happy"; ID := 1 |} ];
     Version := "0.14.0" |}.

Definition zundamon : Speaker :=
  {| Name := "ずんだもん";
     SpeakerUUID := "388f246b-8c41-4ac1-8e2d-5d79f3ff56d9";
     Styles := [ {| StyleName := "ノーマル"; ID := 3 |};
                 {| StyleName := "あまあま"; ID := 1 |} ];
     Version := "0.14.0" |}.

(** Two entries of one name, the first without styles. *)
Definition ghost : Speaker :=
  {| Name := "Bob"; SpeakerUUID := "00000000-0000-0000-0000-000000000001";
     Styles := []; Version := "0.14.0" |}.

Definition bob : Speaker :=
  {| Name := "Bob"; SpeakerUUID := "00000000-0000-0000-0000-000000000002";
     Styles := [ {| StyleName := "Normal"; ID := 7 |} ];
     Version := "0.14.0" |}.

Definition engine_query : AudioQuery :=
  {| AccentPhrases :=
       [ JObject [ ("moras", JArray [ JObject [ ("text", JString "コ") ] ]);
                   ("accent", JNumber 5%float);
                   ("pause_mora", JNull);
                   ("is_interrogative", JBool false) ] ];
     SpeedScale := 1.25%float;
     PitchScale := 0.5%float;
     IntonationScale := 0.75%float;
     VolumeScale := 2.0%float;
     PrePhonemeLength := 0.125%float;
     PostPhonemeLength := 0.25%float;
     OutputSamplingRate := 24000;
     OutputStereo := false;
     Kana := "コンニチワ" |}.

(** A stand-in for the library: its JSON codec knows three catalog
    documents and one query document by name and encodes every query as
    one fixed document; its URL encoding joins the pairs as they come. *)
Definition lib : GoLib :=
  {| json_decode_speakers := fun body =>
       match failure body with
       | Some err => Fail err
       | None =>
           if (contents body =? "[alice]")%string then Ok [alice]
           else if (contents body =? "[alice,zundamon]")%string
                then Ok [alice; zundamon]
           else if (contents body =? "[ghost,bob]")%string
                then Ok [ghost; bob]
           else Fail "invalid character"
       end;
     json_decode_query := fun body =>
       match failure body with
       | Some err => Fail err
       | None =>
           if (contents body =? "{query}")%string then Ok engine_query
           else Fail "invalid character"
       end;
     json_marshal_query := fun _ => Ok "{adjusted query}";
     url_values_encode := fun params =>
       String.concat "&" (map (fun kv => fst kv ++ "=" ++ snd kv) params);
     http_new_request := fun _ _ => None;
     flag_defaults := "  -actor string" ++ nl |}.

Definition body_of (text : string) : ReadCloser :=
  {| contents := text; failure := None |}.

(** An engine on port 50021 that answers each endpoint with a fixed
    status and body. *)
Definition engine (speakers audio_query synthesis : Z * string)
  (r : Request) : res string Response :=
  if (URL r =? "http://localhost:50021/speakers")%string then
    Ok {| StatusCode := fst speakers; Body := body_of (snd speakers) |}
  else if (URL r =? "http://localhost:50021/audio_query")%string then
    Ok {| StatusCode := fst audio_query; Body := body_of (snd audio_query) |}
  else
    Ok {| StatusCode := fst synthesis; Body := body_of (snd synthesis) |}.

Definition world (cl : CommandLine) (speakers audio_query synthesis : Z * string)
  : World :=
  {| os_Args0 := "text2voicevox";
     command_line := cl;
     http_do := engine speakers audio_query synthesis;
     os_ReadFile := fun path =>
       if (path =? "in.txt")%string then Ok "こんにちは"
       else Fail "open: no such file or directory";
     os_WriteFile := fun _ _ => None;
     synthesis_duration := "1.5s" |}.

(** [-i in.txt -o out.wav], every other flag omitted. *)
Definition plain_flags : CommandLine :=
  {| arg_i := Some "in.txt"; arg_o := Some "out.wav"; arg_actor := None;
     arg_port := None; arg_list_actors := None; arg_speed := None;
     arg_pitch := None; arg_intonation := None; arg_volume := None;
     arg_pre_phoneme := None; arg_post_phoneme := None |}.

(** [-i in.txt -o out.wav -actor Alice -speed 1.5 -pre-phoneme 0.5]. *)
Definition tuned_flags : CommandLine :=
  {| arg_i := Some "in.txt"; arg_o := Some "out.wav";
     arg_actor := Some "Alice"; arg_port := None; arg_list_actors := None;
     arg_speed := Some 1.5%float; arg_pitch := None; arg_intonation := None;
     arg_volume := None; arg_pre_phoneme := Some 0.5%float;
     arg_post_phoneme := None |}.

(** [-list-actors], nothing else. *)
Definition list_flags : CommandLine :=
  {| arg_i := None; arg_o := None; arg_actor := None; arg_port := None;
     arg_list_actors := Some true; arg_speed := None; arg_pitch := None;
     arg_intonation := None; arg_volume := None;
     arg_pre_phoneme := None; arg_post_phoneme := None |}.

(** [-o out.wav], no [-i]. *)
Definition no_input_flags : CommandLine :=
  {| arg_i := None; arg_o := Some "out.wav"; arg_actor := None;
     arg_port := None; arg_list_actors := None; arg_speed := None;
     arg_pitch := None; arg_intonation := None; arg_volume := None;
     arg_pre_phoneme := None; arg_post_phoneme := None |}.

Definition healthy (cl : CommandLine) : World :=
  world cl (200, "[alice,zundamon]") (200, "{query}") (200, "RIFF....WAVE").

(** The engine refuses every request. *)
Definition failing (cl : CommandLine) : World :=
  world cl (404, "Not Found") (422, "Unprocessable Entity")
    (500, "Internal Server Error").

(** The engine answers in the success class, but never with 200. *)
Definition almost (cl : CommandLine) : World :=
  world cl (204, "") (201, "{query}") (201, "RIFF....WAVE").

(** Nobody listens on the port. *)
Definition unreachable (cl : CommandLine) : World :=
  {| os_Args0 := "text2voicevox";
     command_line := cl;
     http_do := fun _ => Fail "dial tcp 127.0.0.1:50021: connection refused";
     os_ReadFile := fun _ => Ok "こんにちは";
     os_WriteFile := fun _ _ => None;
     synthesis_duration := "0s" |}.

(** The engine answers 200 with documents that are not JSON. *)
Definition garbled (cl : CommandLine) : World :=
  world cl (200, "<html>") (200, "<html>") (200, "RIFF....WAVE").

(** A library whose request builder and encoder refuse. *)
Definition refusing_lib : GoLib :=
  {| json_decode_speakers := json_decode_speakers lib;
     json_decode_query := json_decode_query lib;
     json_marshal_query := fun _ => Fail "json: unsupported value: NaN";
     url_values_encode := url_values_encode lib;
     http_new_request := fun _ _ => Some "invalid port";
     flag_defaults := flag_defaults lib |}.

(** The connection breaks while the audio is read. *)
Definition broken_audio (cl : CommandLine) : World :=
  {| os_Args0 := "text2voicevox";
     command_line := cl;
     http_do := fun r =>
       if (URL r =? "http://localhost:50021/speakers")%string then
         Ok {| StatusCode := 200; Body := body_of "[alice,zundamon]" |}
       else if (URL r =? "http://localhost:50021/audio_query")%string then
         Ok {| StatusCode := 200; Body := body_of "{query}" |}
       else
         Ok {| StatusCode := 200;
               Body := {| contents := "RIFF";
                          failure := Some "unexpected EOF" |} |};
     os_ReadFile := fun _ => Ok "こんにちは";
     os_WriteFile := fun _ _ => None;
     synthesis_duration := "0s" |}.

(** The disk is full. *)
Definition read_only (cl : CommandLine) : World :=
  {| os_Args0 := "text2voicevox";
     command_line := cl;
     http_do := engine (200, "[alice,zundamon]") (200, "{query}")
                  (200, "RIFF....WAVE");
     os_ReadFile := fun _ => Ok "こんにちは";
     os_WriteFile := fun _ _ => Some "no space left on device";
     synthesis_duration := "0s" |}.

Definition client : Client := NewClient 50021.

End Demo.

(** ** A run of main, stage by stage *)

Definition is_stdout (e : Event) : bool :=
  match e with
  | Stdout _ => true
  | _ => false
  end.

Definition is_http (e : Event) : bool :=
  match e with
  | Http _ => true
  | _ => false
  end.

Definition is_file (e : Event) : bool :=
  match e with
  | FileRead _ | FileWrite _ _ _ => true
  | _ => false
  end.

(** [fmt.Fprintf(os.Stderr, "エラー: %v\n", err)]. *)
Definition report (e : error) : Event :=
  Stderr ("エラー: " ++ Error e ++ nl).

(** The progress lines of [main]. *)
Definition reading_line (W : World) : Event :=
  Stdout ("'" ++ inputFile_of W ++ "' を読み込んでいます..." ++ nl).
Definition creating_line : Event :=
  Stdout ("音声合成クエリを作成中..." ++ nl).
Definition adjusting_line : Event :=
  Stdout ("パラメータを調整しています..." ++ nl).
Definition synthesizing_line : Event :=
  Stdout ("音声合成を実行中..." ++ nl).
Definition done_line (W : World) : Event :=
  Stdout (nl ++ "✨ 完了！ (処理時間: " ++ synthesis_duration W ++ ")" ++ nl).
Definition saved_line (W : World) : Event :=
  Stdout ("音声を '" ++ outputFile_of W ++ "' に保存しました。" ++ nl).

(** The line [findSpeakerID] prints when it has found its speaker. *)
Definition found_line (speaker : Speaker) (style : SpeakerStyle) : Event :=
  Stdout ("話者 '" ++ Name speaker ++ "' (スタイル: " ++ StyleName style ++
          ", ID: " ++ Itoa (ID style) ++ ") を使用します。" ++ nl).

(** The test of the loop of [findSpeakerID]: the name is the requested
    one and there is a style. *)
Definition resolves (name : string) (speaker : Speaker) : bool :=
  (Name speaker =? name)%string
  && match Styles speaker with [] => false | _ :: _ => true end.

(** [main], spelled out by the results of its steps: the trace and the
    outcome of a run, from the traces and results of the client
    operations and of the file system. *)
Definition run_of (L : GoLib) (W : World) : IO unit :=
  if showActors_of W then
    let m := listSpeakers L W (client_of W) in
    match outcome_of m with
    | Done (Some e) => (app (trace_of m) [report e], Exited 1)
    | Done None => (trace_of m, Exited 0)
    | Exited code => (trace_of m, Exited code)
    end
  else if ((inputFile_of W =? "") || (outputFile_of W =? ""))%string then
    (trace_of (Usage L W), Exited 1)
  else
    let m1 := findSpeakerID L W (client_of W) (actorName_of W) in
    match outcome_of m1 with
    | Exited code => (trace_of m1, Exited code)
    | Done (Fail e) => (app (trace_of m1) [report e], Exited 1)
    | Done (Ok speakerID) =>
    let t1 := app (trace_of m1) [reading_line W; FileRead (inputFile_of W)] in
    match os_ReadFile W (inputFile_of W) with
    | Fail err =>
        (app t1 [Stderr ("エラー: ファイルの読み込みに失敗しました: " ++ err ++ nl)],
         Exited 1)
    | Ok text =>
    let m2 := createAudioQuery L W (client_of W) text speakerID in
    let t2 := app t1 (creating_line :: trace_of m2) in
    match outcome_of m2 with
    | Exited code => (t2, Exited code)
    | Done (Fail e) => (app t2 [report e], Exited 1)
    | Done (Ok query) =>
    let m3 := synthesis L W (client_of W) (adjusted W query) speakerID in
    let t3 := app t2 (adjusting_line :: synthesizing_line :: trace_of m3) in
    match outcome_of m3 with
    | Exited code => (t3, Exited code)
    | Done (Fail e) => (app t3 [report e], Exited 1)
    | Done (Ok wavData) =>
    let t4 := app t3 [FileWrite (outputFile_of W) wavData 420] in
    match os_WriteFile W (outputFile_of W) wavData with
    | Some err =>
        (app t4 [Stderr ("エラー: ファイルの保存に失敗しました: " ++ err ++ nl)],
         Exited 1)
    | None => (app t4 [done_line W; saved_line W], Done tt)
    end end end end end.

(** Splits the trace of a run at its stages and evaluates the tests on
    the events that are known. *)
Ltac tidy_run :=
  cbn [outcome_of trace_of fst snd];
  unfold report, reading_line, creating_line, adjusting_line,
    synthesizing_line, done_line, saved_line, exit_code;
  repeat first [ rewrite filter_app | rewrite existsb_app | progress simpl ].

(** ** A statement of the specification that the program does not meet *)

(** C4 as the specification states it: the resolution fails when no
    entry has the requested name, and when the first entry of that name
    has no style. *)
Definition not_found_as_stated : Prop :=
  forall (L : GoLib) (W : World) (c : Client) (name : string)
         (resp : Response) (speakers : list Speaker),
    http_do W (speakers_request c) = Ok resp ->
    StatusCode resp = 200 ->
    json_decode_speakers L (Body resp) = Ok speakers ->
    ((forall s, In s speakers -> Name s <> name) ->
     outcome_of (findSpeakerID L W c name)
       = Done (Fail (ErrSpeakerNotFound name))) /\
    (forall entry,
       find (fun s => (Name s =? name)%string) speakers = Some entry ->
       Styles entry = [] ->
       outcome_of (findSpeakerID L W c name)
         = Done (Fail (ErrSpeakerNotFound name))).

(** ** Lemmas on the monad and on traces *)

Local Open Scope list_scope.

#[local] Arguments append : simpl never.
#[local] Arguments Itoa : simpl never.

Lemma calls_of_app (t1 t2 : Trace) :
  calls_of (t1 ++ t2) = (calls_of t1 ++ calls_of t2)%list.
Proof.
  induction t1 as [|e t1 IH]; simpl; [reflexivity|].
  destruct e; simpl; rewrite IH; reflexivity.
Qed.

Lemma calls_of_outputs (t : Trace) :
  Forall (fun e => is_output e = true) t -> calls_of t = [].
Proof.
  induction 1 as [|e t He _ IH]; simpl; [reflexivity|].
  destruct e; simpl in He; try discriminate; exact IH.
Qed.

Lemma In_calls_of (c : ClientCall) (t : Trace) :
  In (Enter c) t <-> In c (calls_of t).
Proof.
  induction t as [|e t IH]; simpl; [tauto|].
  destruct e; simpl; rewrite <- IH;
    intuition (try discriminate; try (left; congruence)).
Qed.

Lemma trace_bind {A B} (m : IO A) (k : A -> IO B) :
  trace_of (bind m k) =
  match outcome_of m with
  | Done a => (trace_of m ++ trace_of (k a))%list
  | Exited _ => trace_of m
  end.
Proof.
  destruct m as [t [a|code]]; simpl; [|reflexivity].
  destruct (k a); reflexivity.
Qed.

Lemma outcome_bind {A B} (m : IO A) (k : A -> IO B) :
  outcome_of (bind m k) =
  match outcome_of m with
  | Done a => outcome_of (k a)
  | Exited code => Exited code
  end.
Proof.
  destruct m as [t [a|code]]; simpl; [|reflexivity].
  destruct (k a); reflexivity.
Qed.

Lemma for_range_returns {A} (xs : list A) (body : A -> IO unit) :
  (forall x, outcome_of (body x) = Done tt) ->
  outcome_of (for_range xs body) = Done tt.
Proof.
  intros Hb. induction xs as [|x xs IH]; simpl; [reflexivity|].
  rewrite outcome_bind, Hb. exact IH.
Qed.

(** IEEE equality with -1.0 is equality: -1.0 is neither a zero nor a
    NaN. *)
Lemma eqb_minus_one (x : float64) :
  (x =? (-1.0))%float = true <-> x = (-1.0)%float.
Proof.
  split; [|intros ->; reflexivity].
  rewrite eqb_spec. intros H. apply Prim2SF_inj.
  change (Prim2SF (-1.0)%float)
    with (S754_finite true 4503599627370496 (-52)) in *.
  unfold SFeqb, SFcompare in H.
  destruct (Prim2SF x) as [s|s| |s m e]; try discriminate;
    destruct s; try discriminate.
  destruct (Z.compare_spec e (-52)) as [He|He|He]; try discriminate.
  subst e.
  destruct (PosDef.Pos.compare_cont Eq m 4503599627370496) eqn:Hm;
    try discriminate.
  apply Pos.compare_eq in Hm. subst m. reflexivity.
Qed.

(** ** The client operations, one by one *)

Section ClientFacts.

Variable L : GoLib.
Variable W : World.

Lemma findSpeakerID_loop_shape (name : string) (speakers : list Speaker) :
  exists t r,
    findSpeakerID_loop name speakers = (t, Done r) /\
    Forall (fun e => is_output e = true) t.
Proof.
  induction speakers as [|speaker rest IH]; simpl.
  - exists [], (Fail (ErrSpeakerNotFound name)). split; [reflexivity|constructor].
  - destruct (Name speaker =? name)%string; [|exact IH].
    destruct (Styles speaker) as [|style0 styles]; [exact IH|].
    eexists _, _. split; [reflexivity|].
    repeat constructor.
Qed.

Lemma findSpeakerID_loop_first (name : string) (speakers : list Speaker)
  (entry : Speaker) (style0 : SpeakerStyle) (styles : list SpeakerStyle) :
  find (fun s => (Name s =? name)%string) speakers = Some entry ->
  Styles entry = style0 :: styles ->
  outcome_of (findSpeakerID_loop name speakers) = Done (Ok (ID style0)).
Proof.
  induction speakers as [|speaker rest IH]; simpl; [discriminate|].
  destruct (Name speaker =? name)%string.
  - intros [= ->] ->. reflexivity.
  - exact IH.
Qed.

Lemma findSpeakerID_loop_none (name : string) (speakers : list Speaker) :
  (forall s, In s speakers -> Name s = name -> Styles s = []) ->
  findSpeakerID_loop name speakers = ret (Fail (ErrSpeakerNotFound name)).
Proof.
  induction speakers as [|speaker rest IH]; simpl; intros H; [reflexivity|].
  destruct (String.eqb_spec (Name speaker) name) as [Heq|Hne].
  - rewrite (H speaker (or_introl eq_refl) Heq). apply IH.
    intros s Hs. apply H. right. exact Hs.
  - apply IH. intros s Hs. apply H. right. exact Hs.
Qed.

Lemma findSpeakerID_shape (c : Client) (name : string) :
  exists t r,
    findSpeakerID L W c name =
      (Enter (Call_findSpeakerID name) :: Http (speakers_request c) :: t,
       Done r) /\
    Forall (fun e => is_output e = true) t.
Proof.
  unfold findSpeakerID, send, speakers_request. simpl.
  destruct (http_do W _) as [resp|err]; simpl.
  2:{ eexists _, _. split; [reflexivity|constructor]. }
  destruct (StatusCode resp =? StatusOK); simpl.
  2:{ eexists _, _. split; [reflexivity|constructor]. }
  destruct (json_decode_speakers L (Body resp)) as [speakers|err]; simpl.
  2:{ eexists _, _. split; [reflexivity|constructor]. }
  destruct (findSpeakerID_loop_shape name speakers) as (t & r & -> & Ht).
  exists t, r. split; [reflexivity|exact Ht].
Qed.

Lemma findSpeakerID_decoded (c : Client) (name : string) (resp : Response)
  (speakers : list Speaker) :
  http_do W (speakers_request c) = Ok resp ->
  StatusCode resp = StatusOK ->
  json_decode_speakers L (Body resp) = Ok speakers ->
  outcome_of (findSpeakerID L W c name) =
  outcome_of (findSpeakerID_loop name speakers).
Proof.
  unfold findSpeakerID, send, speakers_request. simpl.
  intros -> -> ->. simpl.
  destruct (findSpeakerID_loop name speakers) as [t o]. reflexivity.
Qed.

Lemma findSpeakerID_status (c : Client) (name : string) (resp : Response) :
  http_do W (speakers_request c) = Ok resp ->
  StatusCode resp <> StatusOK ->
  outcome_of (findSpeakerID L W c name) =
  Done (Fail (ErrSpeakersStatus (StatusCode resp))).
Proof.
  unfold findSpeakerID, send, speakers_request. simpl.
  intros -> Hne. apply Z.eqb_neq in Hne. rewrite Hne. reflexivity.
Qed.

Lemma listing_trace (speakers : list Speaker) :
  trace_of
    (for_range speakers (fun speaker =>
       emit (Stdout ("話者名: " ++ Name speaker ++ nl)%string) ;;
       for_range (Styles speaker) (fun style =>
         emit (Stdout ("  - スタイル: " ++ StyleName style ++
                       " (ID: " ++ Itoa (ID style) ++ ")" ++ nl)%string))))%io
  = map Stdout (flat_map speaker_lines speakers).
Proof.
  assert (Hin : forall styles : list SpeakerStyle,
    for_range styles (fun style =>
      emit (Stdout ("  - スタイル: " ++ StyleName style ++
                    " (ID: " ++ Itoa (ID style) ++ ")" ++ nl)%string))
    = (map Stdout (map style_line styles), Done tt)).
  { induction styles as [|style styles IH]; simpl; [reflexivity|].
    rewrite IH. reflexivity. }
  induction speakers as [|speaker rest IH]; simpl; [reflexivity|].
  rewrite Hin. simpl.
  destruct (for_range rest _) as [t o]. simpl in IH. subst t. simpl.
  rewrite !map_app. reflexivity.
Qed.

Lemma listing_returns (speakers : list Speaker) :
  outcome_of
    (for_range speakers (fun speaker =>
       emit (Stdout ("話者名: " ++ Name speaker ++ nl)%string) ;;
       for_range (Styles speaker) (fun style =>
         emit (Stdout ("  - スタイル: " ++ StyleName style ++
                       " (ID: " ++ Itoa (ID style) ++ ")" ++ nl)%string))))%io
  = Done tt.
Proof.
  apply for_range_returns. intros speaker.
  rewrite outcome_bind. simpl.
  apply for_range_returns. reflexivity.
Qed.

Lemma listSpeakers_ok (c : Client) (resp : Response)
  (speakers : list Speaker) :
  http_do W (speakers_request c) = Ok resp ->
  StatusCode resp = StatusOK ->
  json_decode_speakers L (Body resp) = Ok speakers ->
  listSpeakers L W c =
    (Enter Call_listSpeakers :: Http (speakers_request c)
       :: map Stdout (listing speakers), Done None).
Proof.
  unfold listSpeakers, send, speakers_request. simpl.
  intros -> -> ->. simpl.
  pose proof (listing_trace speakers) as Ht.
  pose proof (listing_returns speakers) as Ho.
  destruct (for_range speakers _) as [t o]. simpl in Ht, Ho. subst t o.
  simpl. unfold listing. simpl. rewrite map_app. reflexivity.
Qed.

Lemma listSpeakers_shape (c : Client) :
  exists t r,
    listSpeakers L W c =
      (Enter Call_listSpeakers :: Http (speakers_request c) :: t, Done r) /\
    Forall (fun e => is_output e = true) t.
Proof.
  destruct (http_do W (speakers_request c)) as [resp|err] eqn:Hdo.
  2:{ unfold listSpeakers, send. fold (speakers_request c). simpl.
      rewrite Hdo. simpl. eexists _, _. split; [reflexivity|constructor]. }
  destruct (Z.eq_dec (StatusCode resp) StatusOK) as [Hc|Hc].
  2:{ unfold listSpeakers, send. fold (speakers_request c). simpl.
      rewrite Hdo. simpl. apply Z.eqb_neq in Hc. rewrite Hc. simpl.
      eexists _, _. split; [reflexivity|constructor]. }
  destruct (json_decode_speakers L (Body resp)) as [speakers|err] eqn:Hdec.
  - rewrite (listSpeakers_ok c resp speakers Hdo Hc Hdec).
    eexists _, _. split; [reflexivity|].
    apply Forall_forall. intros e He. apply in_map_iff in He.
    destruct He as (s & <- & _). reflexivity.
  - unfold listSpeakers, send. fold (speakers_request c). simpl.
    rewrite Hdo. simpl. rewrite Hc. simpl. rewrite Hdec.
    eexists _, _. split; [reflexivity|constructor].
Qed.

Lemma listSpeakers_status (c : Client) (resp : Response) :
  http_do W (speakers_request c) = Ok resp ->
  StatusCode resp <> StatusOK ->
  outcome_of (listSpeakers L W c) =
  Done (Some (ErrSpeakersStatus (StatusCode resp))).
Proof.
  unfold listSpeakers, send, speakers_request. simpl.
  intros -> Hne. apply Z.eqb_neq in Hne. rewrite Hne. reflexivity.
Qed.

Lemma createAudioQuery_shape (c : Client) (text : string) (speakerID : Z) :
  exists t r,
    createAudioQuery L W c text speakerID =
      (Enter (Call_createAudioQuery text speakerID) :: t, Done r) /\
    calls_of t = [].
Proof.
  unfold createAudioQuery, send. simpl.
  destruct (http_new_request L _ _); simpl.
  { eexists _, _. split; reflexivity. }
  destruct (http_do W _) as [resp|err]; simpl.
  2:{ eexists _, _. split; reflexivity. }
  destruct (StatusCode resp =? StatusOK); simpl.
  2:{ eexists _, _. split; reflexivity. }
  destruct (json_decode_query L (Body resp)); eexists _, _; split; reflexivity.
Qed.

Lemma createAudioQuery_status (c : Client) (text : string) (speakerID : Z)
  (resp : Response) :
  http_new_request L "POST" (BaseURL c ++ "/audio_query")%string = None ->
  http_do W (audio_query_request L c text speakerID) = Ok resp ->
  StatusCode resp <> StatusOK ->
  outcome_of (createAudioQuery L W c text speakerID) =
  Done (Fail (ErrAudioQueryStatus (StatusCode resp) (contents (Body resp)))).
Proof.
  unfold createAudioQuery, send, audio_query_request. simpl.
  intros -> -> Hne. apply Z.eqb_neq in Hne. simpl. rewrite Hne. reflexivity.
Qed.

Lemma synthesis_shape (c : Client) (query : AudioQuery) (speakerID : Z) :
  exists t r,
    synthesis L W c query speakerID =
      (Enter (Call_synthesis query speakerID) :: t, Done r) /\
    calls_of t = [].
Proof.
  unfold synthesis, send. simpl.
  destruct (json_marshal_query L query); simpl.
  2:{ eexists _, _. split; reflexivity. }
  destruct (http_do W _) as [resp|err]; simpl.
  2:{ eexists _, _. split; reflexivity. }
  destruct (StatusCode resp =? StatusOK); simpl.
  2:{ eexists _, _. split; reflexivity. }
  destruct (failure (Body resp)); eexists _, _; split; reflexivity.
Qed.

Lemma synthesis_status (c : Client) (query : AudioQuery) (speakerID : Z)
  (queryJSON : string) (resp : Response) :
  json_marshal_query L query = Ok queryJSON ->
  http_do W (synthesis_request c queryJSON speakerID) = Ok resp ->
  StatusCode resp <> StatusOK ->
  outcome_of (synthesis L W c query speakerID) =
  Done (Fail (ErrSynthesisStatus (StatusCode resp) (contents (Body resp)))).
Proof.
  unfold synthesis, send, synthesis_request. simpl.
  intros -> -> Hne. apply Z.eqb_neq in Hne. simpl. rewrite Hne. reflexivity.
Qed.

End ClientFacts.

(** ** The calls of a run *)

(** Which client methods [main] enters, with which arguments, in which
    order. *)
Lemma main_calls (L : GoLib) (W : World) :
  calls_of (trace_of (main L W)) =
  if showActors_of W then [Call_listSpeakers]
  else if ((inputFile_of W =? "") || (outputFile_of W =? ""))%string then []
  else
    Call_findSpeakerID (actorName_of W) ::
    match outcome_of (findSpeakerID L W (client_of W) (actorName_of W)) with
    | Done (Ok speakerID) =>
        match os_ReadFile W (inputFile_of W) with
        | Ok text =>
            Call_createAudioQuery text speakerID ::
            match
              outcome_of (createAudioQuery L W (client_of W) text speakerID)
            with
            | Done (Ok query) => [Call_synthesis (adjusted W query) speakerID]
            | _ => []
            end
        | Fail _ => []
        end
    | _ => []
    end.
Proof.
  unfold main.
  fold (inputFile_of W) (outputFile_of W) (actorName_of W) (showActors_of W)
       (client_of W).
  destruct (showActors_of W).
  { destruct (listSpeakers_shape L W (client_of W)) as (t & r & -> & Ht).
    destruct r as [err|]; simpl.
    - rewrite calls_of_app, (calls_of_outputs _ Ht). reflexivity.
    - rewrite app_nil_r, (calls_of_outputs _ Ht). reflexivity. }
  destruct ((inputFile_of W =? "") || (outputFile_of W =? ""))%string.
  { reflexivity. }
  destruct (findSpeakerID_shape L W (client_of W) (actorName_of W))
    as (t & r & -> & Ht).
  cbn [bind ret app outcome_of trace_of fst snd calls_of].
  destruct r as [speakerID|err].
  2:{ simpl. rewrite calls_of_app, (calls_of_outputs _ Ht). reflexivity. }
  destruct (os_ReadFile W (inputFile_of W)) as [text|err].
  2:{ simpl. rewrite calls_of_app, (calls_of_outputs _ Ht). reflexivity. }
  destruct (createAudioQuery_shape L W (client_of W) text speakerID)
    as (t2 & r2 & -> & Ht2).
  destruct r2 as [query|err].
  2:{ simpl. rewrite !calls_of_app, (calls_of_outputs _ Ht). simpl.
      rewrite calls_of_app, Ht2. reflexivity. }
  cbn [bind ret emit app outcome_of trace_of fst snd].
  match goal with
  | |- context [synthesis L W ?c ?q ?i] =>
      change q with (adjusted W query);
      destruct (synthesis_shape L W c (adjusted W query) i)
        as (t3 & r3 & -> & Ht3)
  end.
  destruct r3 as [wavData|err]; simpl;
    [match goal with
     | |- context [os_WriteFile ?w ?f ?d] => destruct (os_WriteFile w f d)
     end|];
    repeat first [ rewrite calls_of_app
                 | rewrite (calls_of_outputs _ Ht)
                 | rewrite Ht2 | rewrite Ht3 | progress simpl ];
    reflexivity.
Qed.

(** The query that reaches [synthesis] is the adjusted one of the query
    [createAudioQuery] returned in the same run. *)
Lemma main_synthesis_inv (L : GoLib) (W : World) (q : AudioQuery)
  (speakerID : Z) :
  In (Enter (Call_synthesis q speakerID)) (trace_of (main L W)) ->
  exists text q0,
    In (Enter (Call_createAudioQuery text speakerID)) (trace_of (main L W)) /\
    outcome_of (createAudioQuery L W (client_of W) text speakerID)
      = Done (Ok q0) /\
    q = adjusted W q0.
Proof.
  rewrite !In_calls_of.
  setoid_rewrite In_calls_of.
  rewrite main_calls.
  destruct (showActors_of W).
  { simpl. intros [H|[]]. discriminate. }
  destruct ((inputFile_of W =? "") || (outputFile_of W =? ""))%string.
  { intros []. }
  destruct (outcome_of (findSpeakerID L W (client_of W) (actorName_of W)))
    as [[id|err]|code]; simpl;
    try (intros [H|[]]; discriminate).
  destruct (os_ReadFile W (inputFile_of W)) as [text|err]; simpl;
    try (intros [H|[]]; discriminate).
  destruct (outcome_of (createAudioQuery L W (client_of W) text id))
    as [[q0|err]|code] eqn:Hq; simpl;
    try (intros [H|[H|[]]]; discriminate).
  intros [H|[H|[H|[]]]]; try discriminate.
  injection H as <- <-.
  exists text, q0. auto.
Qed.

Lemma adjusted_scales (W : World) (q0 : AudioQuery) :
  SpeedScale (adjusted W q0) = speed_of W /\
  PitchScale (adjusted W q0) = pitch_of W /\
  IntonationScale (adjusted W q0) = intonation_of W /\
  VolumeScale (adjusted W q0) = volume_of W.
Proof.
  unfold adjusted.
  destruct (negb (prePhoneme_of W =? (-1.0))%float),
           (negb (postPhoneme_of W =? (-1.0))%float);
    repeat split.
Qed.

Lemma adjusted_frame (W : World) (q0 : AudioQuery) :
  AccentPhrases (adjusted W q0) = AccentPhrases q0 /\
  OutputSamplingRate (adjusted W q0) = OutputSamplingRate q0 /\
  OutputStereo (adjusted W q0) = OutputStereo q0 /\
  Kana (adjusted W q0) = Kana q0.
Proof.
  unfold adjusted.
  destruct (negb (prePhoneme_of W =? (-1.0))%float),
           (negb (postPhoneme_of W =? (-1.0))%float);
    repeat split.
Qed.

Lemma adjusted_pre (W : World) (q0 : AudioQuery) :
  PrePhonemeLength (adjusted W q0) =
  if (prePhoneme_of W =? (-1.0))%float
  then PrePhonemeLength q0 else prePhoneme_of W.
Proof.
  unfold adjusted.
  destruct (prePhoneme_of W =? (-1.0))%float,
           (negb (postPhoneme_of W =? (-1.0))%float); reflexivity.
Qed.

Lemma adjusted_post (W : World) (q0 : AudioQuery) :
  PostPhonemeLength (adjusted W q0) =
  if (postPhoneme_of W =? (-1.0))%float
  then PostPhonemeLength q0 else postPhoneme_of W.
Proof.
  unfold adjusted.
  destruct (negb (prePhoneme_of W =? (-1.0))%float),
           (postPhoneme_of W =? (-1.0))%float; reflexivity.
Qed.

Lemma sentinel_cases (flag : float64) (engine chosen : float64) :
  chosen = (if (flag =? (-1.0))%float then engine else flag) ->
  (flag <> (-1.0)%float -> chosen = flag) /\
  (flag = (-1.0)%float -> chosen = engine).
Proof.
  intros ->. split.
  - intros Hne. destruct (flag =? (-1.0))%float eqn:E; [|reflexivity].
    apply eqb_minus_one in E. contradiction.
  - intros ->. reflexivity.
Qed.

(** * The claims *)

(** ** Overrides *)

(** C1. In every run that reaches synthesis, the query handed to
    [synthesis] stems from the query [createAudioQuery] returned in that
    run, and its pre- and post-phoneme lengths are the flag values where
    the flag value differs from -1.0, and the returned query's values where
    the flag value is -1.0 (which it also is when the flag is omitted). *)
Theorem C1_phoneme_lengths (L : GoLib) (W : World) (q : AudioQuery)
  (speakerID : Z) :
  In (Enter (Call_synthesis q speakerID)) (trace_of (main L W)) ->
  exists text q0,
    In (Enter (Call_createAudioQuery text speakerID)) (trace_of (main L W)) /\
    outcome_of (createAudioQuery L W (client_of W) text speakerID)
      = Done (Ok q0) /\
    let prePhoneme :=
      flag_value (-1.0)%float (arg_pre_phoneme (command_line W)) in
    let postPhoneme :=
      flag_value (-1.0)%float (arg_post_phoneme (command_line W)) in
    (prePhoneme <> (-1.0)%float -> PrePhonemeLength q = prePhoneme) /\
    (prePhoneme = (-1.0)%float -> PrePhonemeLength q = PrePhonemeLength q0) /\
    (postPhoneme <> (-1.0)%float -> PostPhonemeLength q = postPhoneme) /\
    (postPhoneme = (-1.0)%float ->
     PostPhonemeLength q = PostPhonemeLength q0).
Proof.
  intros Hin.
  destruct (main_synthesis_inv L W q speakerID Hin)
    as (text & q0 & Hcall & Hq0 & ->).
  exists text, q0. split; [exact Hcall|]. split; [exact Hq0|].
  cbv zeta.
  destruct (sentinel_cases _ _ _ (adjusted_pre W q0)) as [Hpre1 Hpre2].
  destruct (sentinel_cases _ _ _ (adjusted_post W q0)) as [Hpost1 Hpost2].
  repeat split; assumption.
Qed.

Lemma C1_phoneme_lengths_witness :
  exists text q0,
    In (Enter (Call_createAudioQuery text 0))
       (trace_of (main Demo.lib (Demo.healthy Demo.tuned_flags))) /\
    outcome_of (createAudioQuery Demo.lib (Demo.healthy Demo.tuned_flags)
                  Demo.client text 0) = Done (Ok q0) /\
    PrePhonemeLength
      (adjusted (Demo.healthy Demo.tuned_flags) Demo.engine_query)
    = 0.5%float /\
    PostPhonemeLength
      (adjusted (Demo.healthy Demo.tuned_flags) Demo.engine_query)
    = PostPhonemeLength q0.
Proof.
  destruct (C1_phoneme_lengths Demo.lib (Demo.healthy Demo.tuned_flags)
              (adjusted (Demo.healthy Demo.tuned_flags) Demo.engine_query) 0)
    as (text & q0 & H1 & H2 & H3 & _ & _ & H4).
  - vm_compute. do 10 right. left. reflexivity.
  - exists text, q0. split; [exact H1|]. split; [exact H2|]. split.
    + apply H3. intros H.
      apply (f_equal (fun x => (x =? (-1.0))%float)) in H.
      vm_compute in H. discriminate.
    + apply H4. reflexivity.
Defined.

(** C2. In every run that reaches synthesis, the speed, pitch, intonation
    and volume scales of the query handed to [synthesis] are the values of
    the flags: the given value, or the default 1.0, 0.0, 1.0, 1.0 of an
    omitted flag; the query the engine returned has no say. *)
Theorem C2_scales (L : GoLib) (W : World) (q : AudioQuery) (speakerID : Z) :
  In (Enter (Call_synthesis q speakerID)) (trace_of (main L W)) ->
  SpeedScale q = flag_value 1.0%float (arg_speed (command_line W)) /\
  PitchScale q = flag_value 0.0%float (arg_pitch (command_line W)) /\
  IntonationScale q =
    flag_value 1.0%float (arg_intonation (command_line W)) /\
  VolumeScale q = flag_value 1.0%float (arg_volume (command_line W)).
Proof.
  intros Hin.
  destruct (main_synthesis_inv L W q speakerID Hin)
    as (text & q0 & _ & _ & ->).
  exact (adjusted_scales W q0).
Qed.

Lemma C2_scales_witness :
  SpeedScale (adjusted (Demo.healthy Demo.tuned_flags) Demo.engine_query)
    = 1.5%float /\
  PitchScale (adjusted (Demo.healthy Demo.tuned_flags) Demo.engine_query)
    = 0.0%float /\
  IntonationScale (adjusted (Demo.healthy Demo.tuned_flags) Demo.engine_query)
    = 1.0%float /\
  VolumeScale (adjusted (Demo.healthy Demo.tuned_flags) Demo.engine_query)
    = 1.0%float.
Proof.
  apply (C2_scales Demo.lib (Demo.healthy Demo.tuned_flags)
           (adjusted (Demo.healthy Demo.tuned_flags) Demo.engine_query) 0).
  vm_compute. do 10 right. left. reflexivity.
Defined.

(** C5. Between [createAudioQuery] and [synthesis] only the six scalar
    controls can change: the accent phrases, the output sampling rate, the
    stereo flag and the kana string of the query handed to [synthesis] are
    those of the query [createAudioQuery] returned. *)
Theorem C5_frame (L : GoLib) (W : World) (q : AudioQuery) (speakerID : Z) :
  In (Enter (Call_synthesis q speakerID)) (trace_of (main L W)) ->
  exists text q0,
    In (Enter (Call_createAudioQuery text speakerID)) (trace_of (main L W)) /\
    outcome_of (createAudioQuery L W (client_of W) text speakerID)
      = Done (Ok q0) /\
    AccentPhrases q = AccentPhrases q0 /\
    OutputSamplingRate q = OutputSamplingRate q0 /\
    OutputStereo q = OutputStereo q0 /\
    Kana q = Kana q0.
Proof.
  intros Hin.
  destruct (main_synthesis_inv L W q speakerID Hin)
    as (text & q0 & Hcall & Hq0 & ->).
  exists text, q0. split; [exact Hcall|]. split; [exact Hq0|].
  exact (adjusted_frame W q0).
Qed.

Lemma C5_frame_witness :
  exists text q0,
    In (Enter (Call_createAudioQuery text 0))
       (trace_of (main Demo.lib (Demo.healthy Demo.tuned_flags))) /\
    outcome_of (createAudioQuery Demo.lib (Demo.healthy Demo.tuned_flags)
                  Demo.client text 0) = Done (Ok q0) /\
    AccentPhrases (adjusted (Demo.healthy Demo.tuned_flags) Demo.engine_query)
      = AccentPhrases q0 /\
    Kana (adjusted (Demo.healthy Demo.tuned_flags) Demo.engine_query)
      = Kana q0.
Proof.
  destruct (C5_frame Demo.lib (Demo.healthy Demo.tuned_flags)
              (adjusted (Demo.healthy Demo.tuned_flags) Demo.engine_query) 0)
    as (text & q0 & H1 & H2 & H3 & _ & _ & H4).
  - vm_compute. do 10 right. left. reflexivity.
  - exists text, q0. repeat split; assumption.
Defined.

(** ** Speaker resolution *)

(** C3. When the engine answers the catalog request with 200 and a
    catalog, and the first entry of the catalog whose name is byte for
    byte the requested name has a style, [findSpeakerID] returns the
    identifier of that entry's first style. *)
Theorem C3_first_style (L : GoLib) (W : World) (c : Client) (name : string)
  (resp : Response) (speakers : list Speaker) (entry : Speaker)
  (style0 : SpeakerStyle) (styles : list SpeakerStyle) :
  http_do W (speakers_request c) = Ok resp ->
  StatusCode resp = 200 ->
  json_decode_speakers L (Body resp) = Ok speakers ->
  find (fun s => (Name s =? name)%string) speakers = Some entry ->
  Styles entry = style0 :: styles ->
  outcome_of (findSpeakerID L W c name) = Done (Ok (ID style0)).
Proof.
  intros Hdo Hcode Hdec Hfind Hstyles.
  rewrite (findSpeakerID_decoded L W c name resp speakers Hdo Hcode Hdec).
  exact (findSpeakerID_loop_first name speakers entry style0 styles
           Hfind Hstyles).
Qed.

Lemma C3_first_style_witness :
  outcome_of (findSpeakerID Demo.lib (Demo.healthy Demo.plain_flags)
                Demo.client "ずんだもん") = Done (Ok 3) /\
  outcome_of (findSpeakerID Demo.lib (Demo.healthy Demo.plain_flags)
                Demo.client "alice")
    = Done (Fail (ErrSpeakerNotFound "alice")).
Proof.
  split.
  - apply (C3_first_style Demo.lib (Demo.healthy Demo.plain_flags)
             Demo.client "ずんだもん"
             {| StatusCode := 200; Body := Demo.body_of "[alice,zundamon]" |}
             [Demo.alice; Demo.zundamon] Demo.zundamon
             {| StyleName := "ノーマル"; ID := 3 |}
             [ {| StyleName := "あまあま"; ID := 1 |} ]);
      reflexivity.
  - reflexivity.
Defined.

(** C4, as stated, fails: with the catalog [ghost; bob], two entries named
    Bob of which only the second has a style, resolving Bob returns 7. *)
Lemma C4_first_match_counterexample : ~ not_found_as_stated.
Proof.
  intros H.
  destruct (H Demo.lib
              (Demo.world Demo.plain_flags (200, "[ghost,bob]")
                 (200, "{query}") (200, "RIFF....WAVE"))
              Demo.client "Bob"
              {| StatusCode := 200; Body := Demo.body_of "[ghost,bob]" |}
              [Demo.ghost; Demo.bob] eq_refl eq_refl eq_refl) as [_ H2].
  specialize (H2 Demo.ghost eq_refl eq_refl).
  vm_compute in H2. discriminate.
Qed.

(** C4, amended. When the engine answers the catalog request with 200 and
    a catalog, [findSpeakerID] fails with the speaker-not-found error, which
    carries the requested name, if no entry has that name, and also if
    every entry of that name has an empty style list. *)
Theorem C4_not_found (L : GoLib) (W : World) (c : Client) (name : string)
  (resp : Response) (speakers : list Speaker) :
  http_do W (speakers_request c) = Ok resp ->
  StatusCode resp = 200 ->
  json_decode_speakers L (Body resp) = Ok speakers ->
  ((forall s, In s speakers -> Name s <> name) ->
   outcome_of (findSpeakerID L W c name)
     = Done (Fail (ErrSpeakerNotFound name))) /\
  ((forall s, In s speakers -> Name s = name -> Styles s = []) ->
   outcome_of (findSpeakerID L W c name)
     = Done (Fail (ErrSpeakerNotFound name))).
Proof.
  intros Hdo Hcode Hdec.
  rewrite (findSpeakerID_decoded L W c name resp speakers Hdo Hcode Hdec).
  split.
  - intros Hnone. rewrite findSpeakerID_loop_none; [reflexivity|].
    intros s Hs Hname. destruct (Hnone s Hs Hname).
  - intros Hempty. rewrite findSpeakerID_loop_none by exact Hempty.
    reflexivity.
Qed.

Lemma C4_not_found_witness :
  outcome_of (findSpeakerID Demo.lib
                (Demo.world Demo.plain_flags (200, "[ghost,bob]")
                   (200, "{query}") (200, "RIFF....WAVE"))
                Demo.client "Carol")
    = Done (Fail (ErrSpeakerNotFound "Carol")) /\
  outcome_of (findSpeakerID Demo.lib
                (Demo.world Demo.plain_flags (200, "[ghost,bob]")
                   (200, "{query}") (200, "RIFF....WAVE"))
                Demo.client "Ghost")
    = Done (Fail (ErrSpeakerNotFound "Ghost")).
Proof.
  split.
  - refine (proj1 (C4_not_found Demo.lib
                     (Demo.world Demo.plain_flags (200, "[ghost,bob]")
                        (200, "{query}") (200, "RIFF....WAVE"))
                     Demo.client "Carol"
                     {| StatusCode := 200;
                        Body := Demo.body_of "[ghost,bob]" |}
                     [Demo.ghost; Demo.bob] eq_refl eq_refl eq_refl) _).
    intros s [<-|[<-|[]]]; simpl; discriminate.
  - refine (proj2 (C4_not_found Demo.lib
                     (Demo.world Demo.plain_flags (200, "[ghost,bob]")
                        (200, "{query}") (200, "RIFF....WAVE"))
                     Demo.client "Ghost"
                     {| StatusCode := 200;
                        Body := Demo.body_of "[ghost,bob]" |}
                     [Demo.ghost; Demo.bob] eq_refl eq_refl eq_refl) _).
    intros s [<-|[<-|[]]]; simpl; discriminate.
Defined.

(** ** Protocol failures *)

(** C6. For each of the four client operations: when the engine answers
    the operation's request with a status outside the success class, the
    operation fails with an error of the protocol kind that carries the
    status code of that response, and for [createAudioQuery] and
    [synthesis] also the text of the response body. *)
Theorem C6_non_success_status (L : GoLib) (W : World) (c : Client) :
  (forall resp,
     http_do W (speakers_request c) = Ok resp ->
     success_status (StatusCode resp) = false ->
     exists e,
       outcome_of (listSpeakers L W c) = Done (Some e) /\
       kind_of e = ProtocolError /\ status_of e = Some (StatusCode resp)) /\
  (forall name resp,
     http_do W (speakers_request c) = Ok resp ->
     success_status (StatusCode resp) = false ->
     exists e,
       outcome_of (findSpeakerID L W c name) = Done (Fail e) /\
       kind_of e = ProtocolError /\ status_of e = Some (StatusCode resp)) /\
  (forall text speakerID resp,
     http_new_request L "POST" (BaseURL c ++ "/audio_query")%string = None ->
     http_do W (audio_query_request L c text speakerID) = Ok resp ->
     success_status (StatusCode resp) = false ->
     exists e,
       outcome_of (createAudioQuery L W c text speakerID) = Done (Fail e) /\
       kind_of e = ProtocolError /\ status_of e = Some (StatusCode resp) /\
       body_text_of e = Some (fst (ReadAll (Body resp)))) /\
  (forall query speakerID queryJSON resp,
     json_marshal_query L query = Ok queryJSON ->
     http_do W (synthesis_request c queryJSON speakerID) = Ok resp ->
     success_status (StatusCode resp) = false ->
     exists e,
       outcome_of (synthesis L W c query speakerID) = Done (Fail e) /\
       kind_of e = ProtocolError /\ status_of e = Some (StatusCode resp) /\
       body_text_of e = Some (fst (ReadAll (Body resp)))).
Proof.
  assert (Hns : forall code, success_status code = false -> code <> StatusOK).
  { intros code H ->. discriminate. }
  repeat split.
  - intros resp Hdo Hcode. eexists. split.
    + exact (listSpeakers_status L W c resp Hdo (Hns _ Hcode)).
    + split; reflexivity.
  - intros name resp Hdo Hcode. eexists. split.
    + exact (findSpeakerID_status L W c name resp Hdo (Hns _ Hcode)).
    + split; reflexivity.
  - intros text speakerID resp Hnew Hdo Hcode. eexists. split.
    + exact (createAudioQuery_status L W c text speakerID resp Hnew Hdo
               (Hns _ Hcode)).
    + repeat split.
  - intros query speakerID queryJSON resp Hm Hdo Hcode. eexists. split.
    + exact (synthesis_status L W c query speakerID queryJSON resp Hm Hdo
               (Hns _ Hcode)).
    + repeat split.
Qed.

Lemma C6_non_success_status_witness :
  (exists e,
     outcome_of (listSpeakers Demo.lib (Demo.failing Demo.list_flags)
                   Demo.client) = Done (Some e) /\
     kind_of e = ProtocolError /\ status_of e = Some 404) /\
  (exists e,
     outcome_of (findSpeakerID Demo.lib (Demo.failing Demo.list_flags)
                   Demo.client "Alice") = Done (Fail e) /\
     kind_of e = ProtocolError /\ status_of e = Some 404) /\
  (exists e,
     outcome_of (createAudioQuery Demo.lib (Demo.failing Demo.list_flags)
                   Demo.client "こんにちは" 3) = Done (Fail e) /\
     kind_of e = ProtocolError /\ status_of e = Some 422 /\
     body_text_of e = Some "Unprocessable Entity") /\
  (exists e,
     outcome_of (synthesis Demo.lib (Demo.failing Demo.list_flags)
                   Demo.client Demo.engine_query 3) = Done (Fail e) /\
     kind_of e = ProtocolError /\ status_of e = Some 500 /\
     body_text_of e = Some "Internal Server Error").
Proof.
  destruct (C6_non_success_status Demo.lib (Demo.failing Demo.list_flags)
              Demo.client) as (H1 & H2 & H3 & H4).
  split; [|split; [|split]].
  - exact (H1 {| StatusCode := 404; Body := Demo.body_of "Not Found" |}
              eq_refl eq_refl).
  - exact (H2 "Alice"
              {| StatusCode := 404; Body := Demo.body_of "Not Found" |}
              eq_refl eq_refl).
  - exact (H3 "こんにちは" 3
              {| StatusCode := 422;
                 Body := Demo.body_of "Unprocessable Entity" |}
              eq_refl eq_refl eq_refl).
  - exact (H4 Demo.engine_query 3 "{adjusted query}"
              {| StatusCode := 500;
                 Body := Demo.body_of "Internal Server Error" |}
              eq_refl eq_refl eq_refl).
Defined.

(** C9. For each of the four client operations: every response status
    other than 200, those of the success class such as 201 and 204
    included, makes the operation fail with the status error that carries
    that code. *)
Theorem C9_only_200_succeeds (L : GoLib) (W : World) (c : Client) :
  (forall resp,
     http_do W (speakers_request c) = Ok resp ->
     StatusCode resp <> 200 ->
     outcome_of (listSpeakers L W c)
       = Done (Some (ErrSpeakersStatus (StatusCode resp)))) /\
  (forall name resp,
     http_do W (speakers_request c) = Ok resp ->
     StatusCode resp <> 200 ->
     outcome_of (findSpeakerID L W c name)
       = Done (Fail (ErrSpeakersStatus (StatusCode resp)))) /\
  (forall text speakerID resp,
     http_new_request L "POST" (BaseURL c ++ "/audio_query")%string = None ->
     http_do W (audio_query_request L c text speakerID) = Ok resp ->
     StatusCode resp <> 200 ->
     outcome_of (createAudioQuery L W c text speakerID)
       = Done (Fail (ErrAudioQueryStatus (StatusCode resp)
                       (contents (Body resp))))) /\
  (forall query speakerID queryJSON resp,
     json_marshal_query L query = Ok queryJSON ->
     http_do W (synthesis_request c queryJSON speakerID) = Ok resp ->
     StatusCode resp <> 200 ->
     outcome_of (synthesis L W c query speakerID)
       = Done (Fail (ErrSynthesisStatus (StatusCode resp)
                       (contents (Body resp))))).
Proof.
  repeat split.
  - exact (listSpeakers_status L W c).
  - intros name. exact (findSpeakerID_status L W c name).
  - intros text speakerID. exact (createAudioQuery_status L W c text speakerID).
  - intros query speakerID. exact (synthesis_status L W c query speakerID).
Qed.

Lemma C9_only_200_succeeds_witness :
  outcome_of (listSpeakers Demo.lib (Demo.almost Demo.list_flags) Demo.client)
    = Done (Some (ErrSpeakersStatus 204)) /\
  outcome_of (findSpeakerID Demo.lib (Demo.almost Demo.list_flags)
                Demo.client "Alice")
    = Done (Fail (ErrSpeakersStatus 204)) /\
  outcome_of (createAudioQuery Demo.lib (Demo.almost Demo.list_flags)
                Demo.client "こんにちは" 3)
    = Done (Fail (ErrAudioQueryStatus 201 "{query}")) /\
  outcome_of (synthesis Demo.lib (Demo.almost Demo.list_flags)
                Demo.client Demo.engine_query 3)
    = Done (Fail (ErrSynthesisStatus 201 "RIFF....WAVE")).
Proof.
  destruct (C9_only_200_succeeds Demo.lib (Demo.almost Demo.list_flags)
              Demo.client) as (H1 & H2 & H3 & H4).
  split; [|split; [|split]].
  - apply (H1 {| StatusCode := 204; Body := Demo.body_of "" |} eq_refl).
    discriminate.
  - apply (H2 "Alice" {| StatusCode := 204; Body := Demo.body_of "" |}
              eq_refl).
    discriminate.
  - apply (H3 "こんにちは" 3
              {| StatusCode := 201; Body := Demo.body_of "{query}" |}
              eq_refl eq_refl).
    discriminate.
  - apply (H4 Demo.engine_query 3 "{adjusted query}"
              {| StatusCode := 201; Body := Demo.body_of "RIFF....WAVE" |}
              eq_refl eq_refl).
    discriminate.
Defined.

(** ** The two early exits of main *)

Lemma main_list_mode (L : GoLib) (W : World) :
  showActors_of W = true ->
  main L W =
  (err <- listSpeakers L W (client_of W) ;;
   match err with
   | Some err => fatal ("エラー: " ++ Error err ++ nl)%string
   | None => Exit 0
   end)%io.
Proof.
  intros Hshow. unfold main.
  fold (showActors_of W) (client_of W). rewrite Hshow.
  destruct (listSpeakers L W (client_of W)) as [t [[err|]|code]];
    reflexivity.
Qed.

(** C7. With the list-speakers flag set, [main] enters [listSpeakers] and
    no other client method, sends the catalog request and no other, and
    apart from that only prints: no file is read or written.  When the
    engine answers 200 with a catalog, the run prints the listing of that
    catalog (every entry's name, each followed by its styles' names and
    identifiers, in catalog order) and exits with code 0.  The input and
    output flags play no part. *)
Theorem C7_list_mode (L : GoLib) (W : World) :
  flag_value false (arg_list_actors (command_line W)) = true ->
  (exists t,
     trace_of (main L W) =
       Enter Call_listSpeakers :: Http (speakers_request (client_of W)) :: t /\
     Forall (fun e => is_output e = true) t) /\
  (forall resp speakers,
     http_do W (speakers_request (client_of W)) = Ok resp ->
     StatusCode resp = 200 ->
     json_decode_speakers L (Body resp) = Ok speakers ->
     trace_of (main L W) =
       Enter Call_listSpeakers :: Http (speakers_request (client_of W))
         :: map Stdout (listing speakers) /\
     exit_code (main L W) = 0).
Proof.
  intros Hshow. rewrite (main_list_mode L W Hshow). split.
  - destruct (listSpeakers_shape L W (client_of W)) as (t & r & -> & Ht).
    destruct r as [err|]; simpl.
    + eexists. split; [reflexivity|].
      apply Forall_app. split; [exact Ht|]. repeat constructor.
    + eexists. split; [reflexivity|].
      rewrite app_nil_r. exact Ht.
  - intros resp speakers Hdo Hcode Hdec.
    rewrite (listSpeakers_ok L W (client_of W) resp speakers Hdo Hcode Hdec).
    simpl. rewrite app_nil_r. split; reflexivity.
Qed.

Lemma C7_list_mode_witness :
  trace_of (main Demo.lib
              (Demo.world Demo.list_flags (200, "[alice]") (200, "{query}")
                 (200, "RIFF....WAVE"))) =
    [ Enter Call_listSpeakers;
      Http (http_Get "http://localhost:50021/speakers");
      Stdout listing_header;
      Stdout ("話者名: Alice" ++ nl)%string;
      Stdout ("  - スタイル: Normal (ID: 0)" ++ nl)%string;
      Stdout ("  - スタイル: Happy (ID: 1)" ++ nl)%string;
      Stdout (nth 0 listing_footer "");
      Stdout (nth 1 listing_footer "") ] /\
  exit_code (main Demo.lib
               (Demo.world Demo.list_flags (200, "[alice]") (200, "{query}")
                  (200, "RIFF....WAVE"))) = 0.
Proof.
  apply (proj2 (C7_list_mode Demo.lib
                  (Demo.world Demo.list_flags (200, "[alice]")
                     (200, "{query}") (200, "RIFF....WAVE")) eq_refl)
           {| StatusCode := 200; Body := Demo.body_of "[alice]" |}
           [Demo.alice]); reflexivity.
Defined.

(** C8. Without the list-speakers flag and with an empty input path or an
    empty output path, [main] prints the usage text to the error stream,
    does nothing else (no request, no file access), and exits with code
    1. *)
Theorem C8_missing_paths (L : GoLib) (W : World) :
  flag_value false (arg_list_actors (command_line W)) = false ->
  flag_value "" (arg_i (command_line W)) = "" \/
  flag_value "" (arg_o (command_line W)) = "" ->
  trace_of (main L W) = trace_of (Usage L W) /\
  trace_of (main L W) <> [] /\
  Forall (fun e => is_stderr e = true) (trace_of (main L W)) /\
  exit_code (main L W) = 1.
Proof.
  intros Hshow Hpaths. unfold main. rewrite Hshow.
  assert (Hcond : ((flag_value "" (arg_i (command_line W)) =? "")
                   || (flag_value "" (arg_o (command_line W)) =? ""))%string
                  = true).
  { destruct Hpaths as [-> | ->]; simpl; [reflexivity|].
    apply orb_true_r. }
  simpl. rewrite Hcond. simpl.
  repeat split; [discriminate|repeat constructor].
Qed.

Lemma C8_missing_paths_witness :
  trace_of (main Demo.lib (Demo.healthy Demo.no_input_flags)) =
    trace_of (Usage Demo.lib (Demo.healthy Demo.no_input_flags)) /\
  trace_of (main Demo.lib (Demo.healthy Demo.no_input_flags)) <> [] /\
  Forall (fun e => is_stderr e = true)
    (trace_of (main Demo.lib (Demo.healthy Demo.no_input_flags))) /\
  exit_code (main Demo.lib (Demo.healthy Demo.no_input_flags)) = 1.
Proof.
  apply (C8_missing_paths Demo.lib (Demo.healthy Demo.no_input_flags)).
  - reflexivity.
  - left. reflexivity.
Defined.

(** ** The default speaker *)

(** C10. When the actor flag is omitted, the only name [findSpeakerID] is
    ever entered with is ずんだもん, and a run that neither lists the
    speakers nor stops at the usage text does enter it with that name. *)
Theorem C10_default_actor (L : GoLib) (W : World) :
  arg_actor (command_line W) = None ->
  (forall name,
     In (Enter (Call_findSpeakerID name)) (trace_of (main L W)) ->
     name = "ずんだもん") /\
  (flag_value false (arg_list_actors (command_line W)) = false ->
   flag_value "" (arg_i (command_line W)) <> "" ->
   flag_value "" (arg_o (command_line W)) <> "" ->
   exists t,
     trace_of (main L W) = Enter (Call_findSpeakerID "ずんだもん") :: t).
Proof.
  intros Hactor.
  assert (Hname : actorName_of W = "ずんだもん").
  { unfold actorName_of. rewrite Hactor. reflexivity. }
  split.
  - intros name. rewrite In_calls_of, main_calls, Hname.
    destruct (showActors_of W).
    { intros [H|[]]. discriminate. }
    destruct ((inputFile_of W =? "") || (outputFile_of W =? ""))%string.
    { intros []. }
    cbn [In]. intros [H|H]; [congruence|].
    destruct (outcome_of (findSpeakerID L W (client_of W) "ずんだもん"))
      as [[id|err]|code]; try solve [destruct H].
    destruct (os_ReadFile W (inputFile_of W)) as [text|err];
      try solve [destruct H].
    cbn [In] in H. destruct H as [H|H]; [discriminate|].
    destruct (outcome_of (createAudioQuery L W (client_of W) text id))
      as [[q0|err]|code]; try solve [destruct H].
    cbn [In] in H. destruct H as [H|[]]. discriminate.
  - intros Hshow Hin Hout. unfold main. rewrite Hshow, Hactor.
    apply String.eqb_neq in Hin, Hout. rewrite Hin, Hout.
    fold (client_of W).
    destruct (findSpeakerID_shape L W (client_of W) "ずんだもん")
      as (t & r & Hfind & _).
    cbn [flag_value orb].
    rewrite trace_bind. cbn [ret outcome_of trace_of fst snd app].
    rewrite trace_bind. cbn [ret outcome_of trace_of fst snd app].
    rewrite trace_bind, Hfind. cbn [outcome_of trace_of fst snd app].
    eexists. reflexivity.
Qed.

Lemma C10_default_actor_witness :
  exists t,
    trace_of (main Demo.lib (Demo.healthy Demo.plain_flags)) =
      Enter (Call_findSpeakerID "ずんだもん") :: t.
Proof.
  apply (proj2 (C10_default_actor Demo.lib (Demo.healthy Demo.plain_flags)
                  eq_refl)).
  - reflexivity.
  - discriminate.
  - discriminate.
Defined.

(** * Further properties of the program *)

(** ** main, stage by stage *)

Lemma main_run (L : GoLib) (W : World) : main L W = run_of L W.
Proof.
  unfold main, run_of.
  fold (inputFile_of W) (outputFile_of W) (actorName_of W) (showActors_of W)
       (client_of W).
  destruct (showActors_of W).
  { destruct (listSpeakers L W (client_of W)) as [t [[err|]|code]]; simpl;
      rewrite ?app_nil_r; reflexivity. }
  destruct ((inputFile_of W =? "") || (outputFile_of W =? ""))%string.
  { reflexivity. }
  destruct (findSpeakerID L W (client_of W) (actorName_of W))
    as [t1 [[speakerID|err]|code]];
    cbn [bind ret emit app outcome_of trace_of fst snd]; try reflexivity.
  destruct (os_ReadFile W (inputFile_of W)) as [text|err].
  2:{ cbn. rewrite <- !app_assoc. reflexivity. }
  destruct (createAudioQuery L W (client_of W) text speakerID)
    as [t2 [[query|err]|code]];
    cbn [bind ret emit fatal Exit app outcome_of trace_of fst snd];
    try (rewrite <- ?app_assoc; reflexivity).
  match goal with
  | |- context [synthesis L W ?c ?q ?i] => change q with (adjusted W query)
  end.
  destruct (synthesis L W (client_of W) (adjusted W query) speakerID)
    as [t3 [[wavData|err]|code]];
    cbn [bind ret emit fatal Exit app outcome_of trace_of fst snd];
    try (rewrite <- ?app_assoc; cbn [app]; rewrite <- ?app_assoc;
         reflexivity).
  destruct (os_WriteFile W (outputFile_of W) wavData);
    cbn [bind ret emit fatal Exit app outcome_of trace_of fst snd];
    rewrite <- ?app_assoc; cbn [app]; rewrite <- ?app_assoc; cbn [app];
    rewrite <- ?app_assoc; reflexivity.
Qed.

(** ** Speaker resolution, exactly *)

(** The loop of [findSpeakerID] is a search for the first entry of the
    requested name that has a style. *)
Lemma findSpeakerID_loop_find (name : string) (speakers : list Speaker) :
  findSpeakerID_loop name speakers =
  match find (resolves name) speakers with
  | Some entry =>
      match Styles entry with
      | style0 :: _ => ([found_line entry style0], Done (Ok (ID style0)))
      | [] => ret (Fail (ErrSpeakerNotFound name))
      end
  | None => ret (Fail (ErrSpeakerNotFound name))
  end.
Proof.
  induction speakers as [|speaker rest IH]; simpl; [reflexivity|].
  unfold resolves at 1.
  destruct (Name speaker =? name)%string; simpl; [|exact IH].
  destruct (Styles speaker) as [|style0 styles] eqn:Hs; [exact IH|].
  rewrite Hs. reflexivity.
Qed.

Lemma find_resolves_styles (name : string) (speakers : list Speaker)
  (entry : Speaker) :
  find (resolves name) speakers = Some entry ->
  In entry speakers /\ Name entry = name /\ Styles entry <> [].
Proof.
  intros H. apply find_some in H. destruct H as [Hin Hres].
  unfold resolves in Hres. apply andb_true_iff in Hres.
  destruct Hres as [Hname Hst]. apply String.eqb_eq in Hname.
  repeat split; try assumption.
  intros E. rewrite E in Hst. discriminate.
Qed.

Lemma findSpeakerID_unfold (L : GoLib) (W : World) (c : Client)
  (name : string) :
  findSpeakerID L W c name =
  (Enter (Call_findSpeakerID name) :: Http (speakers_request c)
     :: match http_do W (speakers_request c) with
        | Fail _ => []
        | Ok resp =>
            if negb (StatusCode resp =? StatusOK) then []
            else match json_decode_speakers L (Body resp) with
                 | Fail _ => []
                 | Ok speakers => trace_of (findSpeakerID_loop name speakers)
                 end
        end,
   match http_do W (speakers_request c) with
   | Fail err => Done (Fail (ErrConnect err))
   | Ok resp =>
       if negb (StatusCode resp =? StatusOK)
       then Done (Fail (ErrSpeakersStatus (StatusCode resp)))
       else match json_decode_speakers L (Body resp) with
            | Fail err => Done (Fail (ErrSpeakersDecode err))
            | Ok speakers => outcome_of (findSpeakerID_loop name speakers)
            end
   end).
Proof.
  unfold findSpeakerID, send. fold (speakers_request c). simpl.
  destruct (http_do W (speakers_request c)) as [resp|err]; simpl;
    [|reflexivity].
  destruct (negb (StatusCode resp =? StatusOK)); simpl; [reflexivity|].
  destruct (json_decode_speakers L (Body resp)) as [speakers|err]; simpl;
    [|reflexivity].
  destruct (findSpeakerID_loop name speakers) as [t o]. reflexivity.
Qed.

(** A speaker is resolved to the first style of the first entry that has
    the requested name and a style; entries of that name without styles
    are passed over.  The run of [findSpeakerID] is then the request and
    the one line that names the entry, the style and the identifier. *)
Theorem findSpeakerID_first_with_style (L : GoLib) (W : World) (c : Client)
  (name : string) (resp : Response) (speakers : list Speaker)
  (entry : Speaker) (style0 : SpeakerStyle) (styles : list SpeakerStyle) :
  http_do W (speakers_request c) = Ok resp ->
  StatusCode resp = 200 ->
  json_decode_speakers L (Body resp) = Ok speakers ->
  find (resolves name) speakers = Some entry ->
  Styles entry = style0 :: styles ->
  findSpeakerID L W c name =
    ([Enter (Call_findSpeakerID name); Http (speakers_request c);
      found_line entry style0],
     Done (Ok (ID style0))).
Proof.
  intros Hdo Hcode Hdec Hfind Hst.
  rewrite findSpeakerID_unfold, Hdo, Hcode, Hdec. simpl.
  rewrite findSpeakerID_loop_find, Hfind, Hst. reflexivity.
Qed.

Lemma findSpeakerID_first_with_style_witness :
  findSpeakerID Demo.lib
    (Demo.world Demo.plain_flags (200, "[ghost,bob]") (200, "{query}")
       (200, "RIFF....WAVE"))
    Demo.client "Bob" =
  ([Enter (Call_findSpeakerID "Bob");
    Http (http_Get "http://localhost:50021/speakers");
    Stdout ("話者 'Bob' (スタイル: Normal, ID: 7) を使用します。" ++ nl)%string],
   Done (Ok 7)).
Proof.
  apply (findSpeakerID_first_with_style Demo.lib
           (Demo.world Demo.plain_flags (200, "[ghost,bob]") (200, "{query}")
              (200, "RIFF....WAVE"))
           Demo.client "Bob"
           {| StatusCode := 200; Body := Demo.body_of "[ghost,bob]" |}
           [Demo.ghost; Demo.bob] Demo.bob
           {| StyleName := "Normal"; ID := 7 |} []); reflexivity.
Defined.

(** An identifier that [findSpeakerID] returns comes from the catalog: the
    engine answered 200 with a catalog, and the identifier is that of the
    first style of the first entry of the requested name that has one. *)
Theorem findSpeakerID_sound (L : GoLib) (W : World) (c : Client)
  (name : string) (speakerID : Z) :
  outcome_of (findSpeakerID L W c name) = Done (Ok speakerID) ->
  exists resp speakers entry style0 styles,
    http_do W (speakers_request c) = Ok resp /\
    StatusCode resp = 200 /\
    json_decode_speakers L (Body resp) = Ok speakers /\
    find (resolves name) speakers = Some entry /\
    In entry speakers /\ Name entry = name /\
    Styles entry = style0 :: styles /\ ID style0 = speakerID.
Proof.
  rewrite findSpeakerID_unfold. cbn [outcome_of snd].
  destruct (http_do W (speakers_request c)) as [resp|err] eqn:Hdo;
    [|discriminate].
  destruct (StatusCode resp =? StatusOK) eqn:Hcode; [|discriminate].
  cbn [negb].
  destruct (json_decode_speakers L (Body resp)) as [speakers|err] eqn:Hdec;
    [|discriminate].
  rewrite findSpeakerID_loop_find.
  destruct (find (resolves name) speakers) as [entry|] eqn:Hfind;
    [|discriminate].
  destruct (Styles entry) as [|style0 styles] eqn:Hst; [discriminate|].
  intros [= <-].
  destruct (find_resolves_styles name speakers entry Hfind) as (Hin & Hn & _).
  apply Z.eqb_eq in Hcode.
  exists resp, speakers, entry, style0, styles.
  repeat split; first [assumption | reflexivity].
Qed.

Lemma findSpeakerID_sound_witness :
  exists resp speakers entry style0 styles,
    http_do (Demo.healthy Demo.plain_flags) (speakers_request Demo.client)
      = Ok resp /\
    StatusCode resp = 200 /\
    json_decode_speakers Demo.lib (Body resp) = Ok speakers /\
    find (resolves "ずんだもん") speakers = Some entry /\
    In entry speakers /\ Name entry = "ずんだもん" /\
    Styles entry = style0 :: styles /\ ID style0 = 3.
Proof.
  apply (findSpeakerID_sound Demo.lib (Demo.healthy Demo.plain_flags)
           Demo.client "ずんだもん" 3).
  reflexivity.
Defined.

(** With a catalog at hand, [findSpeakerID] reports the speaker as not
    found exactly when no entry of the requested name has a style. *)
Theorem findSpeakerID_not_found_iff (L : GoLib) (W : World) (c : Client)
  (name : string) (resp : Response) (speakers : list Speaker) :
  http_do W (speakers_request c) = Ok resp ->
  StatusCode resp = 200 ->
  json_decode_speakers L (Body resp) = Ok speakers ->
  (outcome_of (findSpeakerID L W c name)
     = Done (Fail (ErrSpeakerNotFound name))
   <-> forall s, In s speakers -> Name s = name -> Styles s = []).
Proof.
  intros Hdo Hcode Hdec.
  rewrite findSpeakerID_unfold, Hdo, Hcode, Hdec. cbn [outcome_of snd].
  change (negb (200 =? StatusOK)) with false. cbn iota.
  split.
  - rewrite findSpeakerID_loop_find.
    destruct (find (resolves name) speakers) as [entry|] eqn:Hfind.
    + destruct (find_resolves_styles name speakers entry Hfind)
        as (_ & _ & Hne).
      destruct (Styles entry) as [|style0 styles]; [contradiction|].
      discriminate.
    + intros _ s Hin Hname.
      pose proof (find_none _ _ Hfind s Hin) as Hres.
      unfold resolves in Hres. apply String.eqb_eq in Hname.
      rewrite Hname in Hres. simpl in Hres.
      destruct (Styles s); [reflexivity|discriminate].
  - intros Hall. rewrite (findSpeakerID_loop_none name speakers Hall).
    reflexivity.
Qed.

Lemma findSpeakerID_not_found_iff_witness :
  outcome_of (findSpeakerID Demo.lib (Demo.healthy Demo.plain_flags)
                Demo.client "Bob")
    = Done (Fail (ErrSpeakerNotFound "Bob"))
  <-> forall s, In s [Demo.alice; Demo.zundamon] -> Name s = "Bob" ->
                Styles s = [].
Proof.
  apply (findSpeakerID_not_found_iff Demo.lib (Demo.healthy Demo.plain_flags)
           Demo.client "Bob"
           {| StatusCode := 200; Body := Demo.body_of "[alice,zundamon]" |}
           [Demo.alice; Demo.zundamon]); reflexivity.
Defined.

(** A failing [findSpeakerID] prints nothing: its run is the request and
    no more. *)
Theorem findSpeakerID_failure_is_silent (L : GoLib) (W : World) (c : Client)
  (name : string) (e : error) :
  outcome_of (findSpeakerID L W c name) = Done (Fail e) ->
  trace_of (findSpeakerID L W c name) =
    [Enter (Call_findSpeakerID name); Http (speakers_request c)].
Proof.
  rewrite findSpeakerID_unfold. cbn [outcome_of trace_of fst snd].
  destruct (http_do W (speakers_request c)) as [resp|err]; [|reflexivity].
  destruct (negb (StatusCode resp =? StatusOK)); [reflexivity|].
  destruct (json_decode_speakers L (Body resp)) as [speakers|err];
    [|reflexivity].
  rewrite findSpeakerID_loop_find.
  destruct (find (resolves name) speakers) as [entry|]; [|reflexivity].
  destruct (Styles entry); [reflexivity|discriminate].
Qed.

Lemma findSpeakerID_failure_is_silent_witness :
  trace_of (findSpeakerID Demo.lib (Demo.healthy Demo.plain_flags)
              Demo.client "Bob") =
    [Enter (Call_findSpeakerID "Bob");
     Http (http_Get "http://localhost:50021/speakers")].
Proof.
  apply (findSpeakerID_failure_is_silent Demo.lib
           (Demo.healthy Demo.plain_flags) Demo.client "Bob"
           (ErrSpeakerNotFound "Bob")).
  reflexivity.
Defined.

(** Entries of other names play no part in the resolution: the loop gives
    the same result, and prints the same, on the catalog reduced to the
    entries of the requested name. *)
Theorem findSpeakerID_loop_other_names (name : string)
  (speakers : list Speaker) :
  findSpeakerID_loop name
    (filter (fun s => (Name s =? name)%string) speakers)
  = findSpeakerID_loop name speakers.
Proof.
  induction speakers as [|speaker rest IH]; simpl; [reflexivity|].
  destruct (Name speaker =? name)%string eqn:Hname; simpl.
  - rewrite Hname. destruct (Styles speaker); [exact IH|reflexivity].
  - exact IH.
Qed.

(** ** The client operations, run by run *)

Lemma listSpeakers_unfold (L : GoLib) (W : World) (c : Client) :
  listSpeakers L W c =
  match http_do W (speakers_request c) with
  | Fail err =>
      ([Enter Call_listSpeakers; Http (speakers_request c)],
       Done (Some (ErrConnectList err)))
  | Ok resp =>
      if negb (StatusCode resp =? StatusOK) then
        ([Enter Call_listSpeakers; Http (speakers_request c)],
         Done (Some (ErrSpeakersStatus (StatusCode resp))))
      else
        match json_decode_speakers L (Body resp) with
        | Fail err =>
            ([Enter Call_listSpeakers; Http (speakers_request c)],
             Done (Some (ErrSpeakersDecode err)))
        | Ok speakers =>
            (Enter Call_listSpeakers :: Http (speakers_request c)
               :: map Stdout (listing speakers), Done None)
        end
  end.
Proof.
  destruct (http_do W (speakers_request c)) as [resp|err] eqn:Hdo.
  2:{ unfold listSpeakers, send. fold (speakers_request c). simpl.
      rewrite Hdo. reflexivity. }
  destruct (StatusCode resp =? StatusOK) eqn:Hcode; cbn [negb].
  2:{ unfold listSpeakers, send. fold (speakers_request c). simpl.
      rewrite Hdo. simpl. rewrite Hcode. reflexivity. }
  apply Z.eqb_eq in Hcode.
  destruct (json_decode_speakers L (Body resp)) as [speakers|err] eqn:Hdec.
  - exact (listSpeakers_ok L W c resp speakers Hdo Hcode Hdec).
  - unfold listSpeakers, send. fold (speakers_request c). simpl.
    rewrite Hdo. simpl. rewrite Hcode. simpl. rewrite Hdec. reflexivity.
Qed.

Lemma createAudioQuery_unfold (L : GoLib) (W : World) (c : Client)
  (text : string) (speakerID : Z) :
  createAudioQuery L W c text speakerID =
  match http_new_request L "POST" (BaseURL c ++ "/audio_query")%string with
  | Some err =>
      ([Enter (Call_createAudioQuery text speakerID)],
       Done (Fail (ErrNewRequest err)))
  | None =>
      ([Enter (Call_createAudioQuery text speakerID);
        Http (audio_query_request L c text speakerID)],
       match http_do W (audio_query_request L c text speakerID) with
       | Fail err => Done (Fail (ErrAudioQueryRequest err))
       | Ok resp =>
           if negb (StatusCode resp =? StatusOK) then
             Done (Fail (ErrAudioQueryStatus (StatusCode resp)
                           (contents (Body resp))))
           else
             match json_decode_query L (Body resp) with
             | Fail err => Done (Fail (ErrAudioQueryDecode err))
             | Ok query => Done (Ok query)
             end
       end)
  end.
Proof.
  unfold createAudioQuery, send. fold (audio_query_request L c text speakerID).
  simpl.
  destruct (http_new_request L _ _); simpl; [reflexivity|].
  destruct (http_do W _) as [resp|err]; simpl; [|reflexivity].
  destruct (negb (StatusCode resp =? StatusOK)); simpl; [reflexivity|].
  destruct (json_decode_query L (Body resp)); reflexivity.
Qed.

Lemma synthesis_unfold (L : GoLib) (W : World) (c : Client)
  (query : AudioQuery) (speakerID : Z) :
  synthesis L W c query speakerID =
  match json_marshal_query L query with
  | Fail err =>
      ([Enter (Call_synthesis query speakerID)], Done (Fail (ErrMarshal err)))
  | Ok queryJSON =>
      ([Enter (Call_synthesis query speakerID);
        Http (synthesis_request c queryJSON speakerID)],
       match http_do W (synthesis_request c queryJSON speakerID) with
       | Fail err => Done (Fail (ErrSynthesisRequest err))
       | Ok resp =>
           if negb (StatusCode resp =? StatusOK) then
             Done (Fail (ErrSynthesisStatus (StatusCode resp)
                           (contents (Body resp))))
           else
             match failure (Body resp) with
             | Some err => Done (Fail (ErrReadWav err))
             | None => Done (Ok (contents (Body resp)))
             end
       end)
  end.
Proof.
  unfold synthesis, send. simpl.
  destruct (json_marshal_query L query) as [queryJSON|err]; simpl;
    [|reflexivity].
  fold (synthesis_request c queryJSON speakerID).
  destruct (http_do W _) as [resp|err]; simpl; [|reflexivity].
  destruct (negb (StatusCode resp =? StatusOK)); simpl; [reflexivity|].
  destruct (failure (Body resp)); reflexivity.
Qed.

(** When the engine cannot be reached, each operation fails with its
    connection error, which carries the cause; nothing is printed. *)
Theorem client_unreachable (L : GoLib) (W : World) (c : Client) :
  (forall cause,
     http_do W (speakers_request c) = Fail cause ->
     listSpeakers L W c =
       ([Enter Call_listSpeakers; Http (speakers_request c)],
        Done (Some (ErrConnectList cause)))) /\
  (forall name cause,
     http_do W (speakers_request c) = Fail cause ->
     findSpeakerID L W c name =
       ([Enter (Call_findSpeakerID name); Http (speakers_request c)],
        Done (Fail (ErrConnect cause)))) /\
  (forall text speakerID cause,
     http_new_request L "POST" (BaseURL c ++ "/audio_query")%string = None ->
     http_do W (audio_query_request L c text speakerID) = Fail cause ->
     createAudioQuery L W c text speakerID =
       ([Enter (Call_createAudioQuery text speakerID);
         Http (audio_query_request L c text speakerID)],
        Done (Fail (ErrAudioQueryRequest cause)))) /\
  (forall query speakerID queryJSON cause,
     json_marshal_query L query = Ok queryJSON ->
     http_do W (synthesis_request c queryJSON speakerID) = Fail cause ->
     synthesis L W c query speakerID =
       ([Enter (Call_synthesis query speakerID);
         Http (synthesis_request c queryJSON speakerID)],
        Done (Fail (ErrSynthesisRequest cause)))).
Proof.
  repeat split.
  - intros cause H. rewrite listSpeakers_unfold, H. reflexivity.
  - intros name cause H. rewrite findSpeakerID_unfold, H. reflexivity.
  - intros text speakerID cause Hn H.
    rewrite createAudioQuery_unfold, Hn, H. reflexivity.
  - intros query speakerID queryJSON cause Hm H.
    rewrite synthesis_unfold, Hm, H. reflexivity.
Qed.

Lemma client_unreachable_witness :
  outcome_of (listSpeakers Demo.lib (Demo.unreachable Demo.list_flags)
                Demo.client)
    = Done (Some (ErrConnectList
                    "dial tcp 127.0.0.1:50021: connection refused")) /\
  outcome_of (findSpeakerID Demo.lib (Demo.unreachable Demo.list_flags)
                Demo.client "Alice")
    = Done (Fail (ErrConnect
                    "dial tcp 127.0.0.1:50021: connection refused")) /\
  outcome_of (createAudioQuery Demo.lib (Demo.unreachable Demo.list_flags)
                Demo.client "こんにちは" 3)
    = Done (Fail (ErrAudioQueryRequest
                    "dial tcp 127.0.0.1:50021: connection refused")) /\
  outcome_of (synthesis Demo.lib (Demo.unreachable Demo.list_flags)
                Demo.client Demo.engine_query 3)
    = Done (Fail (ErrSynthesisRequest
                    "dial tcp 127.0.0.1:50021: connection refused")).
Proof.
  destruct (client_unreachable Demo.lib (Demo.unreachable Demo.list_flags)
              Demo.client) as (H1 & H2 & H3 & H4).
  split; [|split; [|split]].
  - rewrite (H1 _ eq_refl). reflexivity.
  - rewrite (H2 "Alice" _ eq_refl). reflexivity.
  - rewrite (H3 "こんにちは" 3 _ eq_refl eq_refl). reflexivity.
  - rewrite (H4 Demo.engine_query 3 "{adjusted query}" _ eq_refl eq_refl).
    reflexivity.
Defined.

(** A 200 answer that does not decode makes [listSpeakers],
    [findSpeakerID] and [createAudioQuery] fail with their decode error,
    which carries the decoder's message; [listSpeakers] has then printed
    nothing, not even its header. *)
Theorem client_decode_failure (L : GoLib) (W : World) (c : Client) :
  (forall resp cause,
     http_do W (speakers_request c) = Ok resp ->
     StatusCode resp = 200 ->
     json_decode_speakers L (Body resp) = Fail cause ->
     listSpeakers L W c =
       ([Enter Call_listSpeakers; Http (speakers_request c)],
        Done (Some (ErrSpeakersDecode cause)))) /\
  (forall name resp cause,
     http_do W (speakers_request c) = Ok resp ->
     StatusCode resp = 200 ->
     json_decode_speakers L (Body resp) = Fail cause ->
     findSpeakerID L W c name =
       ([Enter (Call_findSpeakerID name); Http (speakers_request c)],
        Done (Fail (ErrSpeakersDecode cause)))) /\
  (forall text speakerID resp cause,
     http_new_request L "POST" (BaseURL c ++ "/audio_query")%string = None ->
     http_do W (audio_query_request L c text speakerID) = Ok resp ->
     StatusCode resp = 200 ->
     json_decode_query L (Body resp) = Fail cause ->
     createAudioQuery L W c text speakerID =
       ([Enter (Call_createAudioQuery text speakerID);
         Http (audio_query_request L c text speakerID)],
        Done (Fail (ErrAudioQueryDecode cause)))).
Proof.
  repeat split.
  - intros resp cause Hdo Hcode Hdec.
    rewrite listSpeakers_unfold, Hdo, Hcode, Hdec. reflexivity.
  - intros name resp cause Hdo Hcode Hdec.
    rewrite findSpeakerID_unfold, Hdo, Hcode, Hdec. reflexivity.
  - intros text speakerID resp cause Hn Hdo Hcode Hdec.
    rewrite createAudioQuery_unfold, Hn, Hdo, Hcode, Hdec. reflexivity.
Qed.

Lemma client_decode_failure_witness :
  listSpeakers Demo.lib (Demo.garbled Demo.list_flags) Demo.client =
    ([Enter Call_listSpeakers; Http (speakers_request Demo.client)],
     Done (Some (ErrSpeakersDecode "invalid character"))) /\
  outcome_of (findSpeakerID Demo.lib (Demo.garbled Demo.list_flags)
                Demo.client "Alice")
    = Done (Fail (ErrSpeakersDecode "invalid character")) /\
  outcome_of (createAudioQuery Demo.lib (Demo.garbled Demo.list_flags)
                Demo.client "こんにちは" 3)
    = Done (Fail (ErrAudioQueryDecode "invalid character")).
Proof.
  destruct (client_decode_failure Demo.lib (Demo.garbled Demo.list_flags)
              Demo.client) as (H1 & H2 & H3).
  split; [|split].
  - exact (H1 {| StatusCode := 200; Body := Demo.body_of "<html>" |} _
              eq_refl eq_refl eq_refl).
  - rewrite (H2 "Alice" {| StatusCode := 200; Body := Demo.body_of "<html>" |}
               _ eq_refl eq_refl eq_refl).
    reflexivity.
  - rewrite (H3 "こんにちは" 3
               {| StatusCode := 200; Body := Demo.body_of "<html>" |}
               _ eq_refl eq_refl eq_refl eq_refl).
    reflexivity.
Defined.

(** No request leaves the process when it cannot be built: when
    [http.NewRequest] refuses, [createAudioQuery] fails without a request,
    and when the query cannot be encoded, so does [synthesis]. *)
Theorem client_nothing_sent (L : GoLib) (W : World) (c : Client) :
  (forall text speakerID cause,
     http_new_request L "POST" (BaseURL c ++ "/audio_query")%string
       = Some cause ->
     createAudioQuery L W c text speakerID =
       ([Enter (Call_createAudioQuery text speakerID)],
        Done (Fail (ErrNewRequest cause)))) /\
  (forall query speakerID cause,
     json_marshal_query L query = Fail cause ->
     synthesis L W c query speakerID =
       ([Enter (Call_synthesis query speakerID)],
        Done (Fail (ErrMarshal cause)))).
Proof.
  split.
  - intros text speakerID cause H.
    rewrite createAudioQuery_unfold, H. reflexivity.
  - intros query speakerID cause H.
    rewrite synthesis_unfold, H. reflexivity.
Qed.

Lemma client_nothing_sent_witness :
  createAudioQuery Demo.refusing_lib (Demo.healthy Demo.plain_flags)
    Demo.client "こんにちは" 3 =
    ([Enter (Call_createAudioQuery "こんにちは" 3)],
     Done (Fail (ErrNewRequest "invalid port"))) /\
  synthesis Demo.refusing_lib (Demo.healthy Demo.plain_flags)
    Demo.client Demo.engine_query 3 =
    ([Enter (Call_synthesis Demo.engine_query 3)],
     Done (Fail (ErrMarshal "json: unsupported value: NaN"))).
Proof.
  destruct (client_nothing_sent Demo.refusing_lib
              (Demo.healthy Demo.plain_flags) Demo.client) as (H1 & H2).
  split.
  - exact (H1 "こんにちは" 3 "invalid port" eq_refl).
  - exact (H2 Demo.engine_query 3 "json: unsupported value: NaN" eq_refl).
Defined.

(** On a 200 answer [createAudioQuery] returns the decoded query as it
    is, after one request that carries the text and the identifier in its
    query string and has no body. *)
Theorem createAudioQuery_returns_decoded (L : GoLib) (W : World) (c : Client)
  (text : string) (speakerID : Z) (resp : Response) (query : AudioQuery) :
  http_new_request L "POST" (BaseURL c ++ "/audio_query")%string = None ->
  http_do W (audio_query_request L c text speakerID) = Ok resp ->
  StatusCode resp = 200 ->
  json_decode_query L (Body resp) = Ok query ->
  createAudioQuery L W c text speakerID =
    ([Enter (Call_createAudioQuery text speakerID);
      Http {| Method := "POST"; URL := (BaseURL c ++ "/audio_query")%string;
              RawQuery :=
                url_values_encode L
                  [("text", text); ("speaker", Itoa speakerID)]%string;
              ContentType := ""; ReqBody := None |}],
     Done (Ok query)).
Proof.
  intros Hn Hdo Hcode Hdec.
  rewrite createAudioQuery_unfold, Hn, Hdo, Hcode, Hdec. reflexivity.
Qed.

Lemma createAudioQuery_returns_decoded_witness :
  outcome_of (createAudioQuery Demo.lib (Demo.healthy Demo.plain_flags)
                Demo.client "こんにちは" 3)
    = Done (Ok Demo.engine_query).
Proof.
  rewrite (createAudioQuery_returns_decoded Demo.lib
             (Demo.healthy Demo.plain_flags) Demo.client "こんにちは" 3
             {| StatusCode := 200; Body := Demo.body_of "{query}" |}
             Demo.engine_query eq_refl eq_refl eq_refl eq_refl).
  reflexivity.
Defined.

(** On a 200 answer whose body reads to its end, [synthesis] returns the
    bytes of the body as they are; the request it sent is a POST of the
    encoded query, as JSON, to the synthesis endpoint of the speaker. *)
Theorem synthesis_returns_body (L : GoLib) (W : World) (c : Client)
  (query : AudioQuery) (speakerID : Z) (queryJSON : string)
  (resp : Response) :
  json_marshal_query L query = Ok queryJSON ->
  http_do W (synthesis_request c queryJSON speakerID) = Ok resp ->
  StatusCode resp = 200 ->
  failure (Body resp) = None ->
  synthesis L W c query speakerID =
    ([Enter (Call_synthesis query speakerID);
      Http {| Method := "POST";
              URL := (BaseURL c ++ "/synthesis?speaker=" ++
                      Itoa speakerID)%string;
              RawQuery := ""; ContentType := "application/json";
              ReqBody := Some queryJSON |}],
     Done (Ok (contents (Body resp)))).
Proof.
  intros Hm Hdo Hcode Hread.
  rewrite synthesis_unfold, Hm, Hdo, Hcode, Hread. reflexivity.
Qed.

Lemma synthesis_returns_body_witness :
  outcome_of (synthesis Demo.lib (Demo.healthy Demo.plain_flags)
                Demo.client Demo.engine_query 3)
    = Done (Ok "RIFF....WAVE").
Proof.
  rewrite (synthesis_returns_body Demo.lib (Demo.healthy Demo.plain_flags)
             Demo.client Demo.engine_query 3 "{adjusted query}"
             {| StatusCode := 200; Body := Demo.body_of "RIFF....WAVE" |}
             eq_refl eq_refl eq_refl eq_refl).
  reflexivity.
Defined.

(** A 200 answer whose body breaks off makes [synthesis] fail: the bytes
    read so far are not returned. *)
Theorem synthesis_body_breaks_off (L : GoLib) (W : World) (c : Client)
  (query : AudioQuery) (speakerID : Z) (queryJSON : string)
  (resp : Response) (cause : string) :
  json_marshal_query L query = Ok queryJSON ->
  http_do W (synthesis_request c queryJSON speakerID) = Ok resp ->
  StatusCode resp = 200 ->
  failure (Body resp) = Some cause ->
  outcome_of (synthesis L W c query speakerID)
    = Done (Fail (ErrReadWav cause)).
Proof.
  intros Hm Hdo Hcode Hread.
  rewrite synthesis_unfold, Hm, Hdo, Hcode, Hread. reflexivity.
Qed.

Lemma synthesis_body_breaks_off_witness :
  outcome_of (synthesis Demo.lib (Demo.broken_audio Demo.plain_flags)
                Demo.client Demo.engine_query 3)
    = Done (Fail (ErrReadWav "unexpected EOF")).
Proof.
  apply (synthesis_body_breaks_off Demo.lib
           (Demo.broken_audio Demo.plain_flags) Demo.client
           Demo.engine_query 3 "{adjusted query}"
           {| StatusCode := 200;
              Body := {| contents := "RIFF";
                         failure := Some "unexpected EOF" |} |}
           "unexpected EOF"); reflexivity.
Defined.

(** ** Whole runs *)

Lemma stdout_only (t : Trace) :
  Forall (fun e => is_stdout e = true) t ->
  filter is_http t = [] /\ filter is_file t = [] /\
  existsb is_stderr t = false.
Proof.
  induction 1 as [|e t He _ (IH1 & IH2 & IH3)]; [repeat split|].
  destruct e; try discriminate. simpl. repeat split; assumption.
Qed.

Lemma listSpeakers_summary (L : GoLib) (W : World) (c : Client) :
  exists t r,
    listSpeakers L W c =
      (Enter Call_listSpeakers :: Http (speakers_request c) :: t, Done r) /\
    Forall (fun e => is_stdout e = true) t /\
    (forall e, r = Some e -> t = []).
Proof.
  rewrite listSpeakers_unfold.
  destruct (http_do W (speakers_request c)) as [resp|err].
  2:{ eexists _, _. split; [reflexivity|]. split; [constructor|reflexivity]. }
  destruct (negb (StatusCode resp =? StatusOK)).
  { eexists _, _. split; [reflexivity|]. split; [constructor|reflexivity]. }
  destruct (json_decode_speakers L (Body resp)) as [speakers|err].
  2:{ eexists _, _. split; [reflexivity|]. split; [constructor|reflexivity]. }
  eexists _, _. split; [reflexivity|]. split; [|discriminate].
  apply Forall_forall. intros e He. apply in_map_iff in He.
  destruct He as (s & <- & _). reflexivity.
Qed.

Lemma findSpeakerID_summary (L : GoLib) (W : World) (c : Client)
  (name : string) :
  exists t r,
    findSpeakerID L W c name =
      (Enter (Call_findSpeakerID name) :: Http (speakers_request c) :: t,
       Done r) /\
    Forall (fun e => is_stdout e = true) t /\
    (forall e, r = Fail e -> t = []).
Proof.
  rewrite findSpeakerID_unfold.
  destruct (http_do W (speakers_request c)) as [resp|err].
  2:{ eexists _, _. split; [reflexivity|]. split; [constructor|reflexivity]. }
  destruct (negb (StatusCode resp =? StatusOK)).
  { eexists _, _. split; [reflexivity|]. split; [constructor|reflexivity]. }
  destruct (json_decode_speakers L (Body resp)) as [speakers|err].
  2:{ eexists _, _. split; [reflexivity|]. split; [constructor|reflexivity]. }
  rewrite findSpeakerID_loop_find.
  destruct (find (resolves name) speakers) as [entry|].
  2:{ eexists _, _. split; [reflexivity|]. split; [constructor|reflexivity]. }
  destruct (Styles entry) as [|style0 styles].
  { eexists _, _. split; [reflexivity|]. split; [constructor|reflexivity]. }
  eexists _, _. split; [reflexivity|]. split; [|discriminate].
  repeat constructor.
Qed.

Lemma createAudioQuery_summary (L : GoLib) (W : World) (c : Client)
  (text : string) (speakerID : Z) :
  exists t r,
    createAudioQuery L W c text speakerID =
      (Enter (Call_createAudioQuery text speakerID) :: t, Done r) /\
    ((t = [] /\ exists e, r = Fail e) \/
     t = [Http (audio_query_request L c text speakerID)]).
Proof.
  rewrite createAudioQuery_unfold.
  destruct (http_new_request L _ _).
  { eexists _, _. split; [reflexivity|]. left. split; [reflexivity|].
    eexists. reflexivity. }
  destruct (http_do W _) as [resp|err].
  2:{ eexists _, _. split; [reflexivity|]. right. reflexivity. }
  destruct (negb (StatusCode resp =? StatusOK)).
  { eexists _, _. split; [reflexivity|]. right. reflexivity. }
  destruct (json_decode_query L (Body resp));
    eexists _, _; (split; [reflexivity|]); right; reflexivity.
Qed.

Lemma synthesis_summary (L : GoLib) (W : World) (c : Client)
  (query : AudioQuery) (speakerID : Z) :
  exists t r,
    synthesis L W c query speakerID =
      (Enter (Call_synthesis query speakerID) :: t, Done r) /\
    ((t = [] /\ exists e, r = Fail e) \/
     exists queryJSON, t = [Http (synthesis_request c queryJSON speakerID)]).
Proof.
  rewrite synthesis_unfold.
  destruct (json_marshal_query L query) as [queryJSON|err].
  2:{ eexists _, _. split; [reflexivity|]. left. split; [reflexivity|].
      eexists. reflexivity. }
  destruct (http_do W _) as [resp|err].
  2:{ eexists _, _. split; [reflexivity|]. right. eexists. reflexivity. }
  destruct (negb (StatusCode resp =? StatusOK)).
  { eexists _, _. split; [reflexivity|]. right. eexists. reflexivity. }
  destruct (failure (Body resp));
    eexists _, _; (split; [reflexivity|]); right; eexists; reflexivity.
Qed.



(** The only file a run reads is the input file, the only file it writes
    is the output file, with mode 0644, after the read, and what it writes
    are the bytes [synthesis] returned in that run: nothing is written
    unless the synthesis succeeded. *)
Theorem main_file_accesses (L : GoLib) (W : World) :
  filter is_file (trace_of (main L W)) = [] \/
  filter is_file (trace_of (main L W)) = [FileRead (inputFile_of W)] \/
  exists query speakerID wavData,
    In (Enter (Call_synthesis query speakerID)) (trace_of (main L W)) /\
    outcome_of (synthesis L W (client_of W) query speakerID)
      = Done (Ok wavData) /\
    filter is_file (trace_of (main L W)) =
      [FileRead (inputFile_of W); FileWrite (outputFile_of W) wavData 420].
Proof.
  rewrite main_run. unfold run_of. cbv zeta.
  destruct (showActors_of W).
  { left.
    destruct (listSpeakers_summary L W (client_of W))
      as (t & r & -> & Ht & _).
    destruct (stdout_only t Ht) as (_ & Hf & _).
    destruct r; tidy_run; rewrite Hf; reflexivity. }
  destruct ((inputFile_of W =? "") || (outputFile_of W =? ""))%string.
  { left. reflexivity. }
  destruct (findSpeakerID_summary L W (client_of W) (actorName_of W))
    as (t1 & r1 & -> & Ht1 & _).
  destruct (stdout_only t1 Ht1) as (_ & Hf1 & _).
  destruct r1 as [speakerID|e];
    [|left; tidy_run; rewrite Hf1; reflexivity].
  cbn [outcome_of snd].
  destruct (os_ReadFile W (inputFile_of W)) as [text|err];
    [|right; left; tidy_run; rewrite Hf1; reflexivity].
  destruct (createAudioQuery_summary L W (client_of W) text speakerID)
    as (t2 & r2 & -> & Ht2).
  assert (Hf2 : filter is_file t2 = [])
    by (destruct Ht2 as [[-> _] | ->]; reflexivity).
  destruct r2 as [query|e];
    [|right; left; tidy_run; rewrite Hf1, Hf2; reflexivity].
  cbn [outcome_of snd].
  destruct (synthesis L W (client_of W) (adjusted W query) speakerID)
    as [t3' o3] eqn:Hsyn.
  destruct (synthesis_summary L W (client_of W) (adjusted W query) speakerID)
    as (t3 & r3 & E3 & Ht3).
  rewrite Hsyn in E3. injection E3 as -> ->.
  assert (Hf3 : filter is_file t3 = [])
    by (destruct Ht3 as [[-> _] | [j ->]]; reflexivity).
  destruct r3 as [wavData|e];
    [|right; left; tidy_run; rewrite Hf1, Hf2, Hf3; reflexivity].
  right. right. exists (adjusted W query), speakerID, wavData.
  rewrite Hsyn. split; [|split; [reflexivity|]].
  - cbn [outcome_of snd].
    destruct (os_WriteFile W (outputFile_of W) wavData);
      cbn [trace_of fst]; apply in_or_app; left; apply in_or_app; left;
      apply in_or_app; right; right; right; left; reflexivity.
  - cbn [outcome_of snd].
    destruct (os_WriteFile W (outputFile_of W) wavData);
      tidy_run; rewrite Hf1, Hf2, Hf3; reflexivity.
Qed.


(** When the speaker cannot be resolved (engine down, bad status, bad
    catalog, no such speaker), the run is the catalog request and the
    report of the error on the error stream; it exits with code 1 and
    touches no file. *)
Theorem main_resolution_failure (L : GoLib) (W : World) (e : error) :
  showActors_of W = false ->
  inputFile_of W <> "" ->
  outputFile_of W <> "" ->
  outcome_of (findSpeakerID L W (client_of W) (actorName_of W))
    = Done (Fail e) ->
  main L W =
    ([Enter (Call_findSpeakerID (actorName_of W));
      Http (speakers_request (client_of W));
      Stderr ("エラー: " ++ Error e ++ nl)%string],
     Exited 1).
Proof.
  intros Hshow Hin Hout Hfail.
  rewrite main_run. unfold run_of. cbv zeta. rewrite Hshow.
  apply String.eqb_neq in Hin, Hout. rewrite Hin, Hout. cbn [orb].
  rewrite Hfail.
  rewrite (findSpeakerID_failure_is_silent L W (client_of W) (actorName_of W)
             e Hfail).
  reflexivity.
Qed.

Lemma main_resolution_failure_witness :
  main Demo.lib (Demo.unreachable Demo.plain_flags) =
    ([Enter (Call_findSpeakerID "ずんだもん");
      Http (http_Get "http://localhost:50021/speakers");
      Stderr ("エラー: VOICEVOXエンジンに接続できませんでした: " ++
              "dial tcp 127.0.0.1:50021: connection refused" ++ nl ++
              "エンジンが起動しているか、ポート番号が正しいか確認してください" ++
              nl)%string],
     Exited 1).
Proof.
  rewrite (main_resolution_failure Demo.lib
             (Demo.unreachable Demo.plain_flags)
             (ErrConnect "dial tcp 127.0.0.1:50021: connection refused")).
  - reflexivity.
  - reflexivity.
  - discriminate.
  - discriminate.
  - reflexivity.
Defined.

(** When the input file cannot be read, the run stops after the
    resolution: it reports the cause on the error stream, exits with code
    1, and sends no query request. *)
Theorem main_read_failure (L : GoLib) (W : World) (speakerID : Z)
  (cause : string) :
  showActors_of W = false ->
  inputFile_of W <> "" ->
  outputFile_of W <> "" ->
  outcome_of (findSpeakerID L W (client_of W) (actorName_of W))
    = Done (Ok speakerID) ->
  os_ReadFile W (inputFile_of W) = Fail cause ->
  main L W =
    (trace_of (findSpeakerID L W (client_of W) (actorName_of W)) ++
     [Stdout ("'" ++ inputFile_of W ++ "' を読み込んでいます..." ++ nl)%string;
      FileRead (inputFile_of W);
      Stderr ("エラー: ファイルの読み込みに失敗しました: " ++ cause ++ nl)%string],
     Exited 1).
Proof.
  intros Hshow Hin Hout Hfind Hread.
  rewrite main_run. unfold run_of. cbv zeta. rewrite Hshow.
  apply String.eqb_neq in Hin, Hout. rewrite Hin, Hout. cbn [orb].
  rewrite Hfind, Hread. rewrite <- app_assoc. reflexivity.
Qed.

Lemma main_read_failure_witness :
  exit_code
    (main Demo.lib
       (Demo.healthy
          {| arg_i := Some "missing.txt"; arg_o := Some "out.wav";
             arg_actor := None; arg_port := None; arg_list_actors := None;
             arg_speed := None; arg_pitch := None; arg_intonation := None;
             arg_volume := None; arg_pre_phoneme := None;
             arg_post_phoneme := None |})) = 1.
Proof.
  rewrite (main_read_failure Demo.lib
             (Demo.healthy
                {| arg_i := Some "missing.txt"; arg_o := Some "out.wav";
                   arg_actor := None; arg_port := None;
                   arg_list_actors := None; arg_speed := None;
                   arg_pitch := None; arg_intonation := None;
                   arg_volume := None; arg_pre_phoneme := None;
                   arg_post_phoneme := None |})
             3 "open: no such file or directory").
  - reflexivity.
  - reflexivity.
  - discriminate.
  - discriminate.
  - reflexivity.
  - reflexivity.
Defined.

(** A run in which every step succeeds: the three requests in order, the
    adjusted query handed to [synthesis], the bytes of the synthesis
    response written as they are to the output path with mode 0644, the
    two closing lines, and a normal return (exit code 0). *)
Theorem main_success (L : GoLib) (W : World) (resp1 resp2 resp3 : Response)
  (speakers : list Speaker) (entry : Speaker) (style0 : SpeakerStyle)
  (styles : list SpeakerStyle) (text : string) (query : AudioQuery)
  (queryJSON : string) :
  let c := client_of W in
  showActors_of W = false ->
  inputFile_of W <> "" ->
  outputFile_of W <> "" ->
  http_do W (speakers_request c) = Ok resp1 ->
  StatusCode resp1 = 200 ->
  json_decode_speakers L (Body resp1) = Ok speakers ->
  find (resolves (actorName_of W)) speakers = Some entry ->
  Styles entry = style0 :: styles ->
  os_ReadFile W (inputFile_of W) = Ok text ->
  http_new_request L "POST" (BaseURL c ++ "/audio_query")%string = None ->
  http_do W (audio_query_request L c text (ID style0)) = Ok resp2 ->
  StatusCode resp2 = 200 ->
  json_decode_query L (Body resp2) = Ok query ->
  json_marshal_query L (adjusted W query) = Ok queryJSON ->
  http_do W (synthesis_request c queryJSON (ID style0)) = Ok resp3 ->
  StatusCode resp3 = 200 ->
  failure (Body resp3) = None ->
  os_WriteFile W (outputFile_of W) (contents (Body resp3)) = None ->
  main L W =
    ([Enter (Call_findSpeakerID (actorName_of W));
      Http (speakers_request c);
      found_line entry style0;
      reading_line W;
      FileRead (inputFile_of W);
      creating_line;
      Enter (Call_createAudioQuery text (ID style0));
      Http (audio_query_request L c text (ID style0));
      adjusting_line;
      synthesizing_line;
      Enter (Call_synthesis (adjusted W query) (ID style0));
      Http (synthesis_request c queryJSON (ID style0));
      FileWrite (outputFile_of W) (contents (Body resp3)) 420;
      done_line W;
      saved_line W],
     Done tt).
Proof.
  intros c Hshow Hin Hout Hdo1 Hc1 Hdec1 Hfind Hst Hread Hnew Hdo2 Hc2 Hdec2
         Hm Hdo3 Hc3 Hbody Hwrite.
  subst c.
  rewrite main_run. unfold run_of. cbv zeta. rewrite Hshow.
  apply String.eqb_neq in Hin, Hout. rewrite Hin, Hout. cbn [orb].
  rewrite (findSpeakerID_first_with_style L W _ _ resp1 speakers entry style0
             styles Hdo1 Hc1 Hdec1 Hfind Hst).
  cbn [outcome_of trace_of fst snd]. rewrite Hread.
  rewrite (createAudioQuery_returns_decoded L W _ text (ID style0) resp2
             query Hnew Hdo2 Hc2 Hdec2).
  cbn [outcome_of trace_of fst snd].
  rewrite (synthesis_returns_body L W _ (adjusted W query) (ID style0)
             queryJSON resp3 Hm Hdo3 Hc3 Hbody).
  cbn [outcome_of trace_of fst snd]. rewrite Hwrite.
  reflexivity.
Qed.

Lemma main_success_witness :
  In (FileWrite "out.wav" "RIFF....WAVE" 420)
     (trace_of (main Demo.lib (Demo.healthy Demo.plain_flags))) /\
  exit_code (main Demo.lib (Demo.healthy Demo.plain_flags)) = 0.
Proof.
  rewrite (main_success Demo.lib (Demo.healthy Demo.plain_flags)
             {| StatusCode := 200; Body := Demo.body_of "[alice,zundamon]" |}
             {| StatusCode := 200; Body := Demo.body_of "{query}" |}
             {| StatusCode := 200; Body := Demo.body_of "RIFF....WAVE" |}
             [Demo.alice; Demo.zundamon] Demo.zundamon
             {| StyleName := "ノーマル"; ID := 3 |}
             [ {| StyleName := "あまあま"; ID := 1 |} ]
             "こんにちは" Demo.engine_query "{adjusted query}").
  - split; [|reflexivity].
    cbn [trace_of fst]. do 12 right. left. reflexivity.
  - reflexivity.
  - discriminate.
  - discriminate.
  - reflexivity.
  - reflexivity.
  - reflexivity.
  - reflexivity.
  - reflexivity.
  - reflexivity.
  - reflexivity.
  - reflexivity.
  - reflexivity.
  - reflexivity.
  - reflexivity.
  - reflexivity.
  - reflexivity.
  - reflexivity.
  - reflexivity.
Defined.






(** With the list flag, a failing [listSpeakers] makes the run report the
    error on the error stream and exit with code 1; nothing has been
    printed on the standard output. *)
Theorem main_list_failure (L : GoLib) (W : World) (e : error) :
  showActors_of W = true ->
  outcome_of (listSpeakers L W (client_of W)) = Done (Some e) ->
  main L W =
    ([Enter Call_listSpeakers; Http (speakers_request (client_of W));
      Stderr ("エラー: " ++ Error e ++ nl)%string],
     Exited 1).
Proof.
  intros Hshow Hfail.
  rewrite main_run. unfold run_of. cbv zeta. rewrite Hshow.
  destruct (listSpeakers_summary L W (client_of W))
    as (t & r & E & _ & Hsilent).
  rewrite E in Hfail |- *. cbn [outcome_of trace_of fst snd] in Hfail |- *.
  injection Hfail as ->. rewrite (Hsilent e eq_refl). reflexivity.
Qed.

Lemma main_list_failure_witness :
  main Demo.lib (Demo.failing Demo.list_flags) =
    ([Enter Call_listSpeakers;
      Http (http_Get "http://localhost:50021/speakers");
      Stderr ("エラー: 話者情報の取得に失敗しました (ステータスコード: 404)" ++
              nl)%string],
     Exited 1).
Proof.
  rewrite (main_list_failure Demo.lib (Demo.failing Demo.list_flags)
             (ErrSpeakersStatus 404)); reflexivity.
Defined.

(** What [createAudioQuery] is called with is the content of the input
    file, as read, and the identifier [findSpeakerID] returned for the
    actor flag. *)
Theorem main_query_arguments (L : GoLib) (W : World) (text : string)
  (speakerID : Z) :
  In (Enter (Call_createAudioQuery text speakerID)) (trace_of (main L W)) ->
  os_ReadFile W (inputFile_of W) = Ok text /\
  outcome_of (findSpeakerID L W (client_of W) (actorName_of W))
    = Done (Ok speakerID).
Proof.
  rewrite In_calls_of, main_calls.
  destruct (showActors_of W).
  { intros [H|[]]. discriminate. }
  destruct ((inputFile_of W =? "") || (outputFile_of W =? ""))%string.
  { intros []. }
  cbn [In]. intros [H|H]; [discriminate|].
  destruct (outcome_of (findSpeakerID L W (client_of W) (actorName_of W)))
    as [[id|err]|code]; try solve [destruct H].
  destruct (os_ReadFile W (inputFile_of W)) as [text'|err];
    try solve [destruct H].
  cbn [In] in H. destruct H as [[= -> ->]|H]; [split; reflexivity|].
  destruct (outcome_of (createAudioQuery L W (client_of W) text' id))
    as [[q0|err]|code]; try solve [destruct H].
  cbn [In] in H. destruct H as [H|[]]. discriminate.
Qed.

Lemma main_query_arguments_witness :
  os_ReadFile (Demo.healthy Demo.plain_flags) "in.txt" = Ok "こんにちは" /\
  outcome_of (findSpeakerID Demo.lib (Demo.healthy Demo.plain_flags)
                Demo.client "ずんだもん") = Done (Ok 3).
Proof.
  apply (main_query_arguments Demo.lib (Demo.healthy Demo.plain_flags)
           "こんにちは" 3).
  vm_compute. do 6 right. left. reflexivity.
Defined.
